(** * py2neo.rest: the generic REST client

    A shallow embedding of [src/py2neo/rest.py] (class [Resource]) and the
    properties of its request dispatcher [_request] and of the lazy index
    lookup [_lookup].

    Python objects are mutable, so the methods are state transformers over a
    [State] that holds the resource ([self]), the store of response objects
    handed out by the HTTP client, and the trace of the calls made on the
    HTTP client and on its responses.  A method returns or raises; the
    interpreter bounds the depth of nested calls, so a redirect chain that
    has no end stops with the recursion error. *)

From Stdlib Require Import Ascii String.
From stdpp Require Import gmap strings list fin_maps.

Set Warnings "-register-all".

Open Scope Z_scope.

(** ** Python values *)

(** The values that flow through the module: [None], what the JSON codec
    produces, and header strings. A float is kept as its literal. *)
Inductive pyval : Type :=
  | PNone
  | PBool (b : bool)
  | PInt (z : Z)
  | PFloat (lexeme : string)
  | PStr (s : string)
  | PList (l : list pyval)
  | PDict (d : gmap string pyval).

(** [v is None] *)
Definition is_None (v : pyval) : bool :=
  match v with PNone => true | _ => false end.

(** [v == s] for a string literal [s] *)
Definition py_eq_str (v : pyval) (s : string) : bool :=
  match v with PStr s' => bool_decide (s' = s) | _ => false end.

(** The exceptions raised by the module, each with its argument. *)
Inductive exn : Type :=
  | ValueError (arg : pyval)
  | LookupError (arg : pyval)
  | SystemError (arg : pyval)
  | KeyError (arg : pyval)
  | TypeError (msg : string)
  | AttributeError (msg : string)
  | NotImplementedError (msg : string)
  | RuntimeError (msg : string).

(** [needle in hay] on strings: substring test *)
Fixpoint is_substring (needle hay : string) : bool :=
  String.prefix needle hay ||
  match hay with
  | EmptyString => false
  | String _ hay' => is_substring needle hay'
  end.

(** [key in container] for a string [key] *)
Definition py_contains (container : pyval) (key : string) : exn + bool :=
  match container with
  | PDict d => inr (bool_decide (is_Some (d !! key)))
  | PList l => inr (existsb (fun v => py_eq_str v key) l)
  | PStr s => inr (is_substring key s)
  | PNone => inl (TypeError "argument of type 'NoneType' is not iterable")
  | PBool _ => inl (TypeError "argument of type 'bool' is not iterable")
  | PInt _ => inl (TypeError "argument of type 'int' is not iterable")
  | PFloat _ => inl (TypeError "argument of type 'float' is not iterable")
  end.

(** [container[key]] for a string [key] *)
Definition py_getitem (container : pyval) (key : string) : exn + pyval :=
  match container with
  | PDict d =>
      match d !! key with
      | Some v => inr v
      | None => inl (KeyError (PStr key))
      end
  | PList _ => inl (TypeError "list indices must be integers, not str")
  | PStr _ => inl (TypeError "string indices must be integers, not str")
  | _ => inl (TypeError "object has no attribute '__getitem__'")
  end.

(** [dict(pairs)]: a later pair overrides an earlier one with the same key *)
Definition dict_of_pairs {V} (pairs : list (string * V)) : gmap string V :=
  fold_left (fun m kv => <[kv.1 := kv.2]> m) pairs ∅.

(** ** The HTTP client capability *)

(** Modelled from the spec: the response object of the HTTP client library
    (geventhttpclient, an external collaborator): it exposes a status code,
    the headers as a mapping, the content length ([None] without the
    header), the message-complete flag and the body still to be read. *)
Record Response := mkResponse {
  status_code : Z;
  headers : gmap string string;
  content_length : option Z;
  message_complete : bool;
  body : string
}.

#[global] Instance Response_inhabited : Inhabited Response :=
  populate (mkResponse 0 ∅ None true "").

(** [response[name]]: the subscript of the response by a header name. It
    is the value of the header; for a header that the response does not
    have it raises the [KeyError] of a subscript. *)
Definition Response_getitem (r : Response) (name : string) : exn + pyval :=
  match headers r !! name with
  | Some v => inr (PStr v)
  | None => inl (KeyError (PStr name))
  end.

(** Truth value of [response.content_length]: [None] and [0] are false. *)
Definition content_length_truthy (r : Response) : bool :=
  match content_length r with
  | Some n => negb (n =? 0)
  | None => false
  end.

Record HTTPClient := mkHTTPClient {
  client_url : pyval;
  client_params : gmap string pyval
}.

(** Modelled from the spec: [HTTPClient.from_url(uri, **params)] builds a
    client handle from the URI and the connection parameters. *)
Definition HTTPClient_from_url (uri : pyval) (params : gmap string pyval)
  : HTTPClient :=
  mkHTTPClient uri params.

Record Request := mkRequest {
  req_method : string;
  req_uri : pyval;
  req_data : pyval;
  req_headers : gmap string string
}.

(** What happens on the wire, in order: request number [k] is sent (and
    answered by response number [k]), the body of response [k] is read,
    the connection of response [k] is released. *)
Inductive Event : Type :=
  | EvRequest (k : nat) (r : Request)
  | EvRead (k : nat)
  | EvRelease (k : nat).

(** ** The resource *)

Record Resource := mkResource {
  _uri : pyval;
  _base_uri : pyval;
  _relative_uri : pyval;
  _content_type : string;
  _http : HTTPClient;
  _index : pyval;
  (** [self.__response_headers], unset until the first request *)
  _Resource__response_headers : option (gmap string string)
}.

Definition SUPPORTED_CONTENT_TYPES : list string := ["application/json"].

Definition default_http_params : gmap string pyval :=
  <["disable_ipv6" := PBool true]>
    (<["network_timeout" := PInt 300]>
       (<["connection_timeout" := PInt 20]> ∅)).

(** [Resource.__init__]; [http = None] is the default argument. *)
Definition __init__ (uri : pyval) (content_type : string) (index : pyval)
    (http : option HTTPClient) (http_params : gmap string pyval)
  : exn + Resource :=
  if negb (bool_decide (content_type ∈ SUPPORTED_CONTENT_TYPES)) then
    inl (NotImplementedError
           ("Content type " +:+ content_type +:+ " not supported"))
  else
    let params := http_params ∪ default_http_params in
    let client :=
      match http with
      | Some h => h
      | None => HTTPClient_from_url uri params
      end in
    inr {| _uri := uri;
           _base_uri := PNone;
           _relative_uri := PNone;
           _content_type := content_type;
           _http := client;
           _index := index;
           _Resource__response_headers := None |}.

(** ** State and the monad of method bodies *)

Record State := mkState {
  self : Resource;
  (** the response objects handed out so far; response [k] is [conns !!! k] *)
  conns : list Response;
  trace : list Event
}.

Inductive outcome (A : Type) : Type :=
  | Normal (a : A)
  | Raised (e : exn).
Arguments Normal {A} a.
Arguments Raised {A} e.

Definition M (A : Type) : Type := State -> outcome A * State.

Definition ret {A} (a : A) : M A := fun s => (Normal a, s).

Definition raise {A} (e : exn) : M A := fun s => (Raised e, s).

Definition bind {A B} (c : M A) (k : A -> M B) : M B :=
  fun s =>
    match c s with
    | (Normal a, s') => k a s'
    | (Raised e, s') => (Raised e, s')
    end.

Notation "x <- c ;; k" := (bind c (fun x => k))
  (at level 100, c at next level, right associativity).
Notation "c ;;; k" := (bind c (fun _ => k))
  (at level 100, right associativity).

(** [try: body finally: final]. The final block runs when the body has
    returned or raised; an exception of the final block replaces the
    outcome of the body. *)
Definition try_finally {A} (body : M A) (final : M unit) : M A :=
  fun s =>
    match body s with
    | (o, s') =>
        match final s' with
        | (Normal _, s'') => (o, s'')
        | (Raised e, s'') => (Raised e, s'')
        end
    end.

Definition lift_exn {A} (r : exn + A) : M A :=
  match r with
  | inl e => raise e
  | inr a => ret a
  end.

Definition get_self : M Resource := fun s => (Normal (self s), s).

Definition set_self (r : Resource) : M unit :=
  fun s => (Normal tt, mkState r (conns s) (trace s)).

Definition emit (e : Event) : M unit :=
  fun s => (Normal tt, mkState (self s) (conns s) (trace s ++ [e])).

(** Attribute access on the response object number [k] *)
Definition response_get {A} (k : nat) (f : Response -> A) : M A :=
  fun s => (Normal (f (conns s !!! k)), s).

(** [response[name]] on the response object number [k] *)
Definition response_getitem (k : nat) (name : string) : M pyval :=
  fun s =>
    match Response_getitem (conns s !!! k) name with
    | inl e => (Raised e, s)
    | inr v => (Normal v, s)
    end.

Definition mark_read (r : Response) : Response :=
  mkResponse (status_code r) (headers r) (content_length r) true "".

(** Modelled from the spec: [response.read()] drains the rest of the
    body, returns it and leaves the message complete. *)
Definition Response_read (k : nat) : M string :=
  fun s =>
    let r := conns s !!! k in
    (Normal (body r),
     mkState (self s) (alter mark_read k (conns s)) (trace s ++ [EvRead k])).

(** Modelled from the spec: [response.release()] frees the connection. *)
Definition Response_release (k : nat) : M unit := emit (EvRelease k).

(** A return statement was executed, or control reached the end of the
    statement. *)
Inductive ctl : Type :=
  | Return (v : pyval)
  | Next.

(** Assignments to the attributes of [self] *)
Definition with_uri (v : pyval) (r : Resource) : Resource :=
  mkResource v (_base_uri r) (_relative_uri r) (_content_type r) (_http r)
             (_index r) (_Resource__response_headers r).

Definition with_index (v : pyval) (r : Resource) : Resource :=
  mkResource (_uri r) (_base_uri r) (_relative_uri r) (_content_type r)
             (_http r) v (_Resource__response_headers r).

Definition with_response_headers (h : gmap string string) (r : Resource)
  : Resource :=
  mkResource (_uri r) (_base_uri r) (_relative_uri r) (_content_type r)
             (_http r) (_index r) (Some h).

Definition modify_self (f : Resource -> Resource) : M unit :=
  fun s => (Normal tt, mkState (f (self s)) (conns s) (trace s)).

(** ** The methods of [Resource] *)

Section Methods.

(** The outside world: the [k]-th request made through the HTTP client is
    answered by [server k]. *)
Variable server : nat -> Response.

(** The JSON codec, an external collaborator: [json_loads] decodes a text
    or fails, [json_dumps] encodes a value. *)
Variable json_loads : string -> option pyval.
Variable json_dumps : pyval -> string.

(** Modelled from the spec: [http.request(method, uri, body, headers)]
    sends the request and returns a fresh response object. *)
Definition HTTPClient_request (method : string) (uri data : pyval)
    (hdrs : gmap string string) : M nat :=
  fun s =>
    let k := length (conns s) in
    (Normal k,
     mkState (self s) (conns s ++ [server k])
             (trace s ++ [EvRequest k (mkRequest method uri data hdrs)])).

(** [json.load(response)]: read the body, then decode it. *)
Definition json_load (response : nat) : M pyval :=
  raw <- Response_read response ;;
  match json_loads raw with
  | Some v => ret v
  | None => raise (ValueError (PStr "No JSON object could be decoded"))
  end.

Definition __get_request_headers (keys : list string)
  : M (gmap string string) :=
  slf <- get_self ;;
  ret (dict_of_pairs
         (map (fun key => (key, _content_type slf))
              (filter (fun key => key ∈ ["Accept"; "Content-Type"]) keys))).

(** [if not response.message_complete: response.read()] *)
Definition drain (response : nat) : M unit :=
  complete <- response_get response message_complete ;;
  if negb complete then Response_read response ;;; ret tt else ret tt.

(** The chain of tests on the status code (lines 113 to 134). The recursive
    call is the parameter [_request]. *)
Definition status_dispatch (_request : string -> pyval -> pyval -> M pyval)
    (uri : pyval) (response : nat) : M ctl :=
  status <- response_get response status_code ;;
  if status =? 200 then
    has_length <- response_get response content_length_truthy ;;
    has_body <- (if has_length then ret true
                 else encoding <- response_getitem response
                                    "transfer-encoding" ;;
                      ret (py_eq_str encoding "chunked")) ;;
    if has_body then
      v <- json_load response ;; ret (Return v)
    else
      ret (Return PNone)
  else if status =? 201 then
    location <- response_getitem response "location" ;;
    ret (Return location)
  else if status =? 204 then
    ret (Return PNone)
  else if status =? 302 then
    drain response ;;;
    location <- response_getitem response "location" ;;
    v <- _request "GET" location PNone ;;
    ret (Return v)
  else if status =? 400 then
    raw <- Response_read response ;; raise (ValueError (PStr raw))
  else if status =? 404 then
    raise (LookupError uri)
  else if status =? 409 then
    raise (SystemError uri)
  else
    raw <- Response_read response ;; raise (SystemError (PStr raw)).

(** The body of [_request] (lines 105 to 140) *)
Definition _request_body (_request : string -> pyval -> pyval -> M pyval)
    (method : string) (uri data : pyval) : M pyval :=
  hdrs <- (if negb (is_None data)
           then __get_request_headers ["Accept"; "Content-Type"]
           else __get_request_headers ["Accept"]) ;;
  response <- HTTPClient_request method uri data hdrs ;;
  try_finally
    (response_headers <- response_get response headers ;;
     modify_self (with_response_headers response_headers) ;;;
     c <- status_dispatch _request uri response ;;
     match c with
     | Return v => ret v
     | Next => drain response ;;; ret PNone
     end)
    (Response_release response).

(** [_request]. [fuel] is the number of nested calls of [_request] that
    the recursion limit of the interpreter still allows: each redirect
    that is followed is one call deeper, and the call past the limit
    raises the recursion error (a [RuntimeError]) before it has a
    response. *)
Fixpoint _request (fuel : nat) (method : string) (uri data : pyval)
  : M pyval :=
  match fuel with
  | O => raise (RuntimeError "maximum recursion depth exceeded")
  | S fuel' => _request_body (_request fuel') method uri data
  end.

(** The call [self._request(method, uri, **kwargs)] of the verbs, and with
    [data] the call [self._request(method, uri, data, **kwargs)]. A keyword
    that names a parameter already filled by position is a [TypeError];
    the keyword [data] is the payload, [None] without it; the other
    keywords end in [request_params], which [_request] does not read. *)
Definition call_request (fuel : nat) (method : string) (uri : pyval)
    (data : option pyval) (kwargs : gmap string pyval) : M pyval :=
  let filled :=
    ["self"; "method"; "uri"]
    ++ match data with Some _ => ["data"] | None => [] end in
  if existsb (fun name => bool_decide (is_Some (kwargs !! name))) filled
  then raise (TypeError "got multiple values for keyword argument")
  else
    _request fuel method uri
      match data with
      | Some payload => payload
      | None => default PNone (kwargs !! "data")
      end.

Definition _get (fuel : nat) (uri : pyval) (kwargs : gmap string pyval)
  : M pyval :=
  call_request fuel "GET" uri None kwargs.

Definition _post (fuel : nat) (uri data : pyval)
    (kwargs : gmap string pyval) : M pyval :=
  call_request fuel "POST" uri (Some (PStr (json_dumps data))) kwargs.

Definition _put (fuel : nat) (uri data : pyval)
    (kwargs : gmap string pyval) : M pyval :=
  call_request fuel "PUT" uri (Some (PStr (json_dumps data))) kwargs.

Definition _delete (fuel : nat) (uri : pyval) (kwargs : gmap string pyval)
  : M pyval :=
  call_request fuel "DELETE" uri None kwargs.

(** Reading [self.__response_headers] *)
Definition get_response_headers : M (gmap string string) :=
  slf <- get_self ;;
  match _Resource__response_headers slf with
  | Some h => ret h
  | None =>
      raise (AttributeError
               "'Resource' object has no attribute '_Resource__response_headers'")
  end.

Definition _lookup (fuel : nat) (key : string) : M pyval :=
  slf <- get_self ;;
  (if is_None (_index slf) then
     fetched <- _get fuel (_uri slf) ∅ ;;
     modify_self (with_index fetched) ;;;
     response_headers <- get_response_headers ;;
     if negb (bool_decide (response_headers = ∅))
        && bool_decide (is_Some (response_headers !! "content-location"))
     then
       match response_headers !! "content-location" with
       | Some location => modify_self (with_uri (PStr location))
       | None => raise (KeyError (PStr "content-location"))
       end
     else ret tt
   else ret tt) ;;;
  slf <- get_self ;;
  found <- lift_exn (py_contains (_index slf) key) ;;
  if found then lift_exn (py_getitem (_index slf) key)
  else raise (KeyError (PStr key)).

(** ** Descriptions of states and outcomes used in the statements *)

(** The request that [_request method uri data] sends for the resource
    [slf] (lines 105 to 110). *)
Definition request_of (slf : Resource) (method : string) (uri data : pyval)
  : Request :=
  mkRequest method uri data
    (if negb (is_None data)
     then dict_of_pairs [("Accept", _content_type slf);
                         ("Content-Type", _content_type slf)]
     else dict_of_pairs [("Accept", _content_type slf)]).

(** The state once the request is sent, the response object is created and
    its headers are remembered in [self] (lines 110 to 112). *)
Definition sent (method : string) (uri data : pyval) (s : State) : State :=
  let k := length (conns s) in
  mkState (with_response_headers (headers (server k)) (self s))
          (conns s ++ [server k])
          (trace s ++ [EvRequest k (request_of (self s) method uri data)]).

(** The state after [response.read()] on response [k] *)
Definition st_read (k : nat) (s : State) : State :=
  mkState (self s) (alter mark_read k (conns s)) (trace s ++ [EvRead k]).

(** The state after [response.release()] on response [k] *)
Definition st_release (k : nat) (s : State) : State :=
  mkState (self s) (conns s) (trace s ++ [EvRelease k]).

(** The state after [if not response.message_complete: response.read()]
    on a response [r] that nothing was read of yet *)
Definition st_drain (k : nat) (r : Response) (s : State) : State :=
  if message_complete r then s else st_read k s.

(** [json.loads(text)] as an outcome *)
Definition decode (text : string) : outcome pyval :=
  match json_loads text with
  | Some v => Normal v
  | None => Raised (ValueError (PStr "No JSON object could be decoded"))
  end.

(** The test of line 114 on a response: the subscript is evaluated only
    when the content length is [None] or zero. *)
Definition has_body (r : Response) : exn + bool :=
  if content_length_truthy r then inr true
  else
    match Response_getitem r "transfer-encoding" with
    | inl e => inl e
    | inr encoding => inr (py_eq_str encoding "chunked")
    end.

(** The outcome of the status dispatch for a response that is not a
    redirect, and whether that branch reads the body. *)
Definition direct_outcome (uri : pyval) (r : Response) : outcome pyval :=
  if status_code r =? 200 then
    match has_body r with
    | inl e => Raised e
    | inr true => decode (body r)
    | inr false => Normal PNone
    end
  else if status_code r =? 201 then
    match Response_getitem r "location" with
    | inl e => Raised e
    | inr location => Normal location
    end
  else if status_code r =? 204 then Normal PNone
  else if status_code r =? 400 then Raised (ValueError (PStr (body r)))
  else if status_code r =? 404 then Raised (LookupError uri)
  else if status_code r =? 409 then Raised (SystemError uri)
  else Raised (SystemError (PStr (body r))).

Definition direct_reads (r : Response) : bool :=
  if status_code r =? 200 then
    match has_body r with inr true => true | _ => false end
  else if status_code r =? 201 then false
  else if status_code r =? 204 then false
  else if status_code r =? 400 then true
  else if status_code r =? 404 then false
  else if status_code r =? 409 then false
  else true.

(** The outcome of a [return] statement seen as control flow *)
Definition as_return (o : outcome pyval) : outcome ctl :=
  match o with
  | Normal v => Normal (Return v)
  | Raised e => Raised e
  end.

(** The request headers of an event are those of a resource of content
    type [content_type]: [Accept] always, [Content-Type] with a payload
    only. *)
Definition request_headers_ok (content_type : string) (e : Event) : Prop :=
  match e with
  | EvRequest _ r =>
      req_headers r !! "Accept" = Some content_type
      ∧ (req_data r ≠ PNone ->
         req_headers r !! "Content-Type" = Some content_type)
      ∧ (req_data r = PNone -> req_headers r !! "Content-Type" = None)
  | _ => True
  end.

(** Lines 203 to 206: the answer of a lookup in the index [index] *)
Definition index_answer (index : pyval) (key : string) : outcome pyval :=
  match py_contains index key with
  | inl e => Raised e
  | inr true =>
      match py_getitem index key with
      | inl e => Raised e
      | inr v => Normal v
      end
  | inr false => Raised (KeyError (PStr key))
  end.

(** Lines 199 to 202 on [self], once the fetch has returned [fetched] *)
Definition adopt (fetched : pyval) (slf : Resource) : Resource :=
  match _Resource__response_headers slf with
  | Some h =>
      match h !! "content-location" with
      | Some location => with_uri (PStr location) (with_index fetched slf)
      | None => with_index fetched slf
      end
  | None => with_index fetched slf
  end.

(** The requests among the events, in order *)
Definition requests_of (evs : list Event) : list Request :=
  omap (fun e => match e with EvRequest _ r => Some r | _ => None end) evs.

(** A run of several lookups, one after the other *)
Definition lookups (fuel : nat) (keys : list string) (s : State) : State :=
  fold_left (fun st key => (_lookup fuel key st).2) keys s.

End Methods.

(** ** A JSON codec and some servers for the examples *)

Definition dquote : Ascii.ascii := "034"%char.

Definition quoted (s : string) : string :=
  String dquote (s +:+ String dquote EmptyString).

(** The characters up to the closing quote, and what follows it *)
Fixpoint scan_string (s : string) : option (string * string) :=
  match s with
  | EmptyString => None
  | String c rest =>
      if Ascii.eqb c dquote then Some (EmptyString, rest)
      else match scan_string rest with
           | Some (str, rest') => Some (String c str, rest')
           | None => None
           end
  end.

Definition scan_quoted (s : string) : option (string * string) :=
  match s with
  | String c rest => if Ascii.eqb c dquote then scan_string rest else None
  | EmptyString => None
  end.

(** The members of an object, after the opening brace *)
Fixpoint scan_members (fuel : nat) (s : string) (acc : gmap string pyval)
  : option (gmap string pyval) :=
  match fuel with
  | O => None
  | S fuel' =>
      match scan_quoted s with
      | Some (k, String ":"%char rest) =>
          match scan_quoted rest with
          | Some (v, String ","%char rest') =>
              scan_members fuel' rest' (<[k := PStr v]> acc)
          | Some (v, String "}"%char EmptyString) => Some (<[k := PStr v]> acc)
          | _ => None
          end
      | _ => None
      end
  end.

(** A decoder for a fragment of JSON: [null], [true], [false], a string
    without escapes, and an object whose members are such strings, all
    without white space. Any other text is rejected. *)
Definition flat_json_loads (s : string) : option pyval :=
  if bool_decide (s = "null") then Some PNone
  else if bool_decide (s = "true") then Some (PBool true)
  else if bool_decide (s = "false") then Some (PBool false)
  else if bool_decide (s = "{}") then Some (PDict ∅)
  else
    match s with
    | String "{"%char rest => PDict <$> scan_members (String.length s) rest ∅
    | String _ _ =>
        match scan_quoted s with
        | Some (str, EmptyString) => Some (PStr str)
        | _ => None
        end
    | EmptyString => None
    end.

Definition example_index_text : string :=
  "{" +:+ quoted "self" +:+ ":" +:+ quoted "http://svc/node/1" +:+ ","
      +:+ quoted "properties" +:+ ":" +:+ quoted "http://svc/node/1/properties"
      +:+ "}".

Definition example_index : gmap string pyval :=
  <["properties" := PStr "http://svc/node/1/properties"]>
    (<["self" := PStr "http://svc/node/1"]> ∅).

Definition example_client : HTTPClient :=
  HTTPClient_from_url (PStr "http://svc/") default_http_params.

(** A resource as [Resource("http://svc/node/1")] builds it *)
Definition example_resource : Resource :=
  mkResource (PStr "http://svc/node/1") PNone PNone "application/json"
             (HTTPClient_from_url (PStr "http://svc/node/1")
                                  default_http_params)
             PNone None.

Definition example_state : State := mkState example_resource [] [].

Definition response_ok_index : Response :=
  mkResponse 200 {["content-length" := "72"]} (Some 72) false
             example_index_text.

Definition response_ok_canonical : Response :=
  mkResponse 200
    (<["content-location" := "http://svc/node/1/"]>
       {["content-length" := "72"]})
    (Some 72) false example_index_text.



Definition response_ok_empty : Response :=
  mkResponse 200 ∅ None true "".

Definition response_created : Response :=
  mkResponse 201 {["location" := "http://svc/node/2"]} (Some 2) false
             "{}".


Definition response_created_nowhere : Response :=
  mkResponse 201 ∅ (Some 2) false "{}".

Definition response_found_nowhere : Response :=
  mkResponse 302 ∅ (Some 5) false "moved".

Definition response_no_content : Response :=
  mkResponse 204 ∅ None true "".

Definition response_found (location : string) : Response :=
  mkResponse 302 {["location" := location]} (Some 5) false "moved".

Definition response_bad_request : Response :=
  mkResponse 400 ∅ (Some 11) false "bad payload".

Definition response_not_found : Response :=
  mkResponse 404 {["content-location" := "http://svc/missing"]} (Some 9)
             false "not found".

Definition response_conflict : Response :=
  mkResponse 409 ∅ (Some 8) false "conflict".

Definition response_server_error : Response :=
  mkResponse 500 ∅ (Some 4) false "oops".

(** The server answers with the responses of the list, in order, and with
    [last] from then on. *)
Definition scripted (script : list Response) (last : Response)
  : nat -> Response :=
  fun k => default last (script !! k).

(** ** Equality and spawning *)

(** [a == b] between the values a URI can be. Where a side is [None] or a
    string the answer follows from the values alone, and booleans compare
    with integers as 0 and 1; the comparison of floats and of containers
    is not modelled ([None] here). *)
Definition py_eq (a b : pyval) : option bool :=
  match a, b with
  | PNone, PNone => Some true
  | PNone, _ | _, PNone => Some false
  | PStr s, PStr t => Some (bool_decide (s = t))
  | PStr _, _ | _, PStr _ => Some false
  | PBool x, PBool y => Some (bool_decide (x = y))
  | PInt x, PInt y => Some (bool_decide (x = y))
  | PBool x, PInt y | PInt y, PBool x =>
      Some (bool_decide ((if x then 1 else 0) = y))
  | _, _ => None
  end.

(** [a != b] *)
Definition py_ne (a b : pyval) : option bool := negb <$> py_eq a b.

Definition __eq__ (slf other : Resource) : option bool :=
  py_eq (_uri slf) (_uri other).

Definition __ne__ (slf other : Resource) : option bool :=
  py_ne (_uri slf) (_uri other).

(** [_spawn(class_, *args, **kwargs)]. The keyword arguments are split in
    [http_kw], the keyword [http] when the caller passes it ([Some None]
    is [http=None]), and the other ones; [class_] receives the positional
    arguments, the [http] of the merged dictionary and the others. *)
Definition _spawn {Args Kw R} (slf : Resource)
    (class_ : Args -> option HTTPClient -> Kw -> R)
    (args : Args) (http_kw : option (option HTTPClient)) (kwargs : Kw) : R :=
  let http :=
    match http_kw with
    | Some given => given
    | None => Some (_http slf)
    end in
  class_ args http kwargs.

(** The class [Resource] as a callable: [Resource(uri, content_type,
    index, http=..., **http_params)] *)
Definition Resource_class (args : pyval * string * pyval)
    (http : option HTTPClient) (http_params : gmap string pyval)
  : exn + Resource :=
  __init__ args.1.1 args.1.2 args.2 http http_params.

(** ** Reading traces *)

(** The response an event is about *)
Definition event_id (e : Event) : nat :=
  match e with
  | EvRequest k _ => k
  | EvRead k => k
  | EvRelease k => k
  end.

Definition is_release (e : Event) : bool :=
  match e with EvRelease _ => true | _ => false end.

Definition is_read_of (j : nat) (e : Event) : bool :=
  match e with EvRead k => bool_decide (k = j) | _ => false end.

Fixpoint count_events (p : Event -> bool) (evs : list Event) : nat :=
  match evs with
  | [] => 0%nat
  | e :: evs' => ((if p e then 1 else 0) + count_events p evs')%nat
  end.

(** The URI of the last request of a call for [uri] that follows the
    redirects to [locations], one after the other. *)
Definition last_uri (uri : pyval) (locations : list string) : pyval :=
  default uri (PStr <$> last locations).

(** No [AttributeError] *)
Definition not_attribute_error (e : exn) : bool :=
  match e with
  | AttributeError _ => false
  | _ => true
  end.

Example flat_json_loads_index :
  flat_json_loads example_index_text = Some (PDict example_index).
Proof. vm_compute. reflexivity. Qed.


(** * Properties *)

(** ** Construction *)

(** C9: the supported content types are JSON alone; construction with a
    supported content type yields a resource with the given URI, content
    type and index, and construction with any other content type raises
    the unsupported-content-type error ([NotImplementedError]). *)
Theorem init_checks_content_type uri content_type index http http_params :
  SUPPORTED_CONTENT_TYPES = ["application/json"]
  ∧ (content_type ∈ SUPPORTED_CONTENT_TYPES ->
     ∃ slf, __init__ uri content_type index http http_params = inr slf
            ∧ _uri slf = uri
            ∧ _content_type slf = content_type
            ∧ _index slf = index)
  ∧ (content_type ∉ SUPPORTED_CONTENT_TYPES ->
     __init__ uri content_type index http http_params =
     inl (NotImplementedError
            ("Content type " +:+ content_type +:+ " not supported"))).
Proof.
  split; [done|]. unfold __init__. split; intros Hct.
  - rewrite bool_decide_true by done. cbn [negb]. by eexists.
  - by rewrite bool_decide_false.
Qed.

Section Properties.

Variable server : nat -> Response.
Variable json_loads : string -> option pyval.

#[local] Abbreviation request := (_request server json_loads).
#[local] Abbreviation lookup := (_lookup server json_loads).

(** ** One call of [_request], unfolded *)

Lemma sent_fresh m u d s :
  conns (sent server m u d s) !!! length (conns s) = server (length (conns s)).
Proof. unfold sent; cbn. by apply list_lookup_total_middle. Qed.

Lemma sent_length m u d s :
  length (conns (sent server m u d s)) = S (length (conns s)).
Proof. unfold sent; cbn. rewrite length_app; cbn. lia. Qed.

Lemma read_fresh m u d s :
  conns (st_read (length (conns s)) (sent server m u d s))
    !!! length (conns s) = mark_read (server (length (conns s))).
Proof.
  unfold st_read; cbn [conns].
  rewrite list_lookup_total_alter_eq by (rewrite sent_length; lia).
  by rewrite sent_fresh.
Qed.

Lemma drain_fresh m u d s :
  drain (length (conns s)) (sent server m u d s) =
  (Normal tt,
   st_drain (length (conns s)) (server (length (conns s)))
            (sent server m u d s)).
Proof.
  unfold drain, bind, response_get, st_drain. rewrite sent_fresh.
  by destruct (message_complete _).
Qed.

Lemma getitem_drained m u d s name :
  Response_getitem
    (conns (st_drain (length (conns s)) (server (length (conns s)))
                     (sent server m u d s)) !!! length (conns s)) name
  = Response_getitem (server (length (conns s))) name.
Proof.
  unfold st_drain. destruct (message_complete _).
  - by rewrite sent_fresh.
  - by rewrite read_fresh.
Qed.

Lemma request_step fuel m u d s :
  request (S fuel) m u d s =
  try_finally
    (c <- status_dispatch json_loads (request fuel) u (length (conns s)) ;;
     match c with
     | Return v => ret v
     | Next => drain (length (conns s)) ;;; ret PNone
     end)
    (Response_release (length (conns s))) (sent server m u d s).
Proof.
  cbn [_request]. unfold _request_body, try_finally, bind, sent, request_of.
  destruct d; cbn; by rewrite list_lookup_total_middle.
Qed.

Lemma dispatch_direct rec m u d s :
  let k := length (conns s) in
  let r := server k in
  status_code r ≠ 302 ->
  status_dispatch json_loads rec u k (sent server m u d s) =
  (as_return (direct_outcome json_loads u r),
   if direct_reads r then st_read k (sent server m u d s)
   else sent server m u d s).
Proof.
  intros k r Hr.
  unfold status_dispatch, direct_outcome, direct_reads, has_body, json_load,
    decode, bind, response_get, response_getitem, Response_read, ret, raise.
  subst r k. cbn beta. rewrite !sent_fresh.
  repeat (case_match; simplify_eq; rewrite ?sent_fresh in * );
    try reflexivity; try lia; try congruence.
Qed.

Lemma dispatch_redirect rec m u d s :
  let k := length (conns s) in
  let r := server k in
  status_code r = 302 ->
  status_dispatch json_loads rec u k (sent server m u d s) =
  match Response_getitem r "location" with
  | inl e => (Raised e, st_drain k r (sent server m u d s))
  | inr location =>
      (v <- rec "GET" location PNone ;; ret (Return v))
        (st_drain k r (sent server m u d s))
  end.
Proof.
  intros k r Hr. subst r k. unfold status_dispatch.
  unfold bind at 1. unfold response_get at 1. rewrite sent_fresh.
  rewrite Hr. cbn [Z.eqb Pos.eqb].
  unfold bind at 1. rewrite drain_fresh.
  unfold bind at 1. unfold response_getitem. rewrite getitem_drained.
  by destruct (Response_getitem _ "location").
Qed.

Lemma request_direct fuel m u d s :
  let k := length (conns s) in
  let r := server k in
  status_code r ≠ 302 ->
  request (S fuel) m u d s =
  (direct_outcome json_loads u r,
   st_release k (if direct_reads r then st_read k (sent server m u d s)
                 else sent server m u d s)).
Proof.
  intros k r Hr. rewrite request_step.
  unfold try_finally, bind. rewrite dispatch_direct by done.
  subst r k. by destruct (direct_outcome json_loads u _).
Qed.

Lemma request_redirect fuel m u d s X :
  let k := length (conns s) in
  let r := server k in
  status_code r = 302 ->
  headers r !! "location" = Some X ->
  request (S fuel) m u d s =
  (let '(o, s') := request fuel "GET" (PStr X) PNone
                           (st_drain k r (sent server m u d s)) in
   (o, st_release k s')).
Proof.
  intros k r Hr HX. rewrite request_step.
  unfold try_finally, bind at 1. rewrite dispatch_redirect by done.
  subst r k. unfold Response_getitem. rewrite HX. unfold bind.
  destruct (request fuel _ _ _ _) as [[v|e] s']; reflexivity.
Qed.

Lemma request_lost fuel m u d s :
  let k := length (conns s) in
  let r := server k in
  status_code r = 302 ->
  headers r !! "location" = None ->
  request (S fuel) m u d s =
  (Raised (KeyError (PStr "location")),
   st_release k (st_drain k r (sent server m u d s))).
Proof.
  intros k r Hr HX. rewrite request_step.
  unfold try_finally, bind at 1. rewrite dispatch_redirect by done.
  subst r k. unfold Response_getitem. by rewrite HX.
Qed.

(** The three cases of a call with fuel: a redirect that is followed, or
    a response that ends the call after at most one read. *)
Lemma request_cases fuel m u d s :
  let k := length (conns s) in
  let r := server k in
  let s0 := sent server m u d s in
  (∃ X, status_code r = 302 ∧ headers r !! "location" = Some X
        ∧ request (S fuel) m u d s =
          (let '(o, s') := request fuel "GET" (PStr X) PNone
                                   (st_drain k r s0) in
           (o, st_release k s')))
  ∨ (∃ o (reads : bool),
       request (S fuel) m u d s =
       (o, st_release k (if reads then st_read k s0 else s0))).
Proof.
  intros k r s0.
  destruct (decide (status_code r = 302)) as [Hr|Hr].
  - destruct (headers r !! "location") as [X|] eqn:HX.
    + left. exists X. split; [done|]. split; [done|].
      by apply request_redirect.
    + right. exists (Raised (KeyError (PStr "location"))),
        (negb (message_complete r)).
      rewrite (request_lost fuel m u d s Hr HX). fold k r s0.
      unfold st_drain. by destruct (message_complete r).
  - right. eexists _, _. by apply request_direct.
Qed.

(** ** What a call of [_request] does to the state *)

Lemma request_of_headers_ok slf m u d k :
  request_headers_ok (_content_type slf) (EvRequest k (request_of slf m u d)).
Proof.
  unfold request_headers_ok, request_of; cbn [req_headers req_data].
  destruct d; cbn [is_None negb]; by repeat split.
Qed.

Lemma st_drain_trace k r s :
  trace (st_drain k r s) =
  trace s ++ (if message_complete r then [] else [EvRead k]).
Proof.
  unfold st_drain. destruct (message_complete r); cbn; by rewrite ?app_nil_r.
Qed.

Lemma st_drain_self k r s : self (st_drain k r s) = self s.
Proof. unfold st_drain. by destruct (message_complete r). Qed.

Lemma st_drain_length k r s :
  length (conns (st_drain k r s)) = length (conns s).
Proof.
  unfold st_drain. destruct (message_complete r); cbn; [done|].
  apply length_alter.
Qed.

Lemma terminal_length k m u d s (reads : bool) :
  length (conns (st_release k (if reads
                               then st_read k (sent server m u d s)
                               else sent server m u d s)))
  = S (length (conns s)).
Proof.
  destruct reads; cbn [st_release st_read conns];
    by rewrite ?length_alter, sent_length.
Qed.

(** The events of a call: they extend the trace, the first one is the
    request asked for, every request carries the right headers, and every
    response that the call obtained is released. *)
Lemma request_run fuel : ∀ m u d s,
  ∃ evs,
    trace (request fuel m u d s).2 = trace s ++ evs
    ∧ Forall (request_headers_ok (_content_type (self s))) evs
    ∧ (∀ f, fuel = S f ->
         ∃ rest, evs = EvRequest (length (conns s))
                                 (request_of (self s) m u d) :: rest)
    ∧ (∀ j, (length (conns s) ≤ j
             < length (conns (request fuel m u d s).2))%nat ->
            EvRelease j ∈ evs).
Proof.
  induction fuel as [|fuel IH]; intros m u d s.
  { exists []. cbn. rewrite app_nil_r.
    split; [done|]. split; [constructor|]. split; [done|].
    intros j Hj. lia. }
  set (k := length (conns s)). set (r := server k).
  destruct (request_cases fuel m u d s)
    as [(X & Hr & HX & ->)|(o & reads & ->)]; fold k r.
  - set (s1 := st_drain k r (sent server m u d s)).
    destruct (IH "GET" (PStr X) PNone s1) as (evs & Htr & Hok & _ & Hrel).
    assert (Hlen1 : length (conns s1) = S k).
    { unfold s1. by rewrite st_drain_length, sent_length. }
    assert (Hself1 : _content_type (self s1) = _content_type (self s)).
    { unfold s1. by rewrite st_drain_self. }
    assert (Htr1 : trace s1 = trace s ++
              EvRequest k (request_of (self s) m u d)
              :: (if message_complete r then [] else [EvRead k])).
    { unfold s1. rewrite st_drain_trace. unfold sent; cbn [trace].
      by rewrite <- app_assoc. }
    destruct (request fuel "GET" _ PNone s1) as [o s2] eqn:Hrun.
    cbn [fst snd] in *. rewrite Hself1 in Hok.
    exists (EvRequest k (request_of (self s) m u d)
            :: (if message_complete r then [] else [EvRead k])
               ++ evs ++ [EvRelease k]).
    cbn [st_release trace conns]. rewrite Htr, Htr1.
    split; [by rewrite <- !app_assoc|].
    split.
    { constructor; [apply request_of_headers_ok|].
      rewrite !Forall_app. split; [|split; [done|repeat constructor]].
      destruct (message_complete r); repeat constructor. }
    split; [eauto|].
    intros j Hj. rewrite elem_of_cons, !elem_of_app.
    destruct (decide (j = k)) as [->|Hne].
    + right. right. right. by apply list_elem_of_singleton.
    + right. right. left. apply Hrel. lia.
  - cbn [fst snd].
    exists (EvRequest k (request_of (self s) m u d)
            :: (if reads then [EvRead k] else []) ++ [EvRelease k]).
    split.
    { destruct reads; cbn; by rewrite <- !app_assoc. }
    split.
    { constructor; [apply request_of_headers_ok|].
      destruct reads; repeat constructor. }
    split; [eauto|].
    intros j Hj. rewrite terminal_length in Hj.
    assert (j = k) as -> by (unfold k; lia).
    rewrite elem_of_cons, elem_of_app. right. right.
    by apply list_elem_of_singleton.
Qed.

(** A call touches one attribute of [self] only: the remembered response
    headers, which end up being those of the last response obtained. *)
Lemma request_self fuel : ∀ m u d s,
  let s' := (request (S fuel) m u d s).2 in
  (length (conns s) < length (conns s'))%nat
  ∧ self s' =
    with_response_headers
      (headers (server (pred (length (conns s'))))) (self s).
Proof.
  induction fuel as [|fuel IH]; intros m u d s;
    set (k := length (conns s)); set (r := server k).
  - destruct (request_cases 0 m u d s)
      as [(X & Hr & HX & ->)|(o & reads & ->)]; fold k r.
    + cbn [_request raise snd st_release conns self].
      rewrite st_drain_length, st_drain_self, sent_length. fold k.
      split; [lia | done].
    + cbn [snd]. rewrite terminal_length. fold k. split; [lia|].
      by destruct reads.
  - destruct (request_cases (S fuel) m u d s)
      as [(X & Hr & HX & ->)|(o & reads & ->)]; fold k r.
    + set (s1 := st_drain k r (sent server m u d s)).
      destruct (IH "GET" (PStr X) PNone s1) as [Hlt Hself].
      assert (Hlen1 : length (conns s1) = S k)
        by (unfold s1; by rewrite st_drain_length, sent_length).
      assert (Hself1 : self s1 = with_response_headers (headers r) (self s))
        by (unfold s1; by rewrite st_drain_self).
      destruct (request (S fuel) "GET" _ PNone s1) as [o s2].
      cbn [snd st_release conns self] in *. rewrite Hself1 in Hself.
      split; [lia | by rewrite Hself].
    + cbn [snd]. rewrite terminal_length. fold k. split; [lia|].
      by destruct reads.
Qed.

(** ** The recursion limit *)


(** A chain of [n] redirects, to the locations of the list, that ends in a
    response that is not a redirect: the call sends [n + 1] requests and
    its outcome and final state are those of the last response, for the
    last location; the limit plays no part as long as it allows the
    [n + 1] calls. *)
Lemma request_chain locations : ∀ fuel m u d s,
  (∀ i X, locations !! i = Some X ->
          status_code (server (length (conns s) + i)) = 302
          ∧ headers (server (length (conns s) + i)) !! "location" = Some X) ->
  status_code (server (length (conns s) + length locations)) ≠ 302 ->
  (length locations < fuel)%nat ->
  (request fuel m u d s).1
  = direct_outcome json_loads (last_uri u locations)
                   (server (length (conns s) + length locations))
  ∧ length (conns (request fuel m u d s).2)
    = S (length (conns s) + length locations)
  ∧ request fuel m u d s = request (S (length locations)) m u d s.
Proof.
  induction locations as [|X locations IH]; intros fuel m u d s Hred Hlast Hfuel;
    (destruct fuel as [|fuel]; [cbn in Hfuel; lia|]); cbn [length] in *.
  - rewrite Nat.add_0_r in *.
    rewrite !(request_direct _ m u d s Hlast). cbn [fst snd].
    split; [done|]. split; [|done].
    destruct (direct_reads _); cbn [st_release st_read conns];
      by rewrite ?length_alter, sent_length.
  - destruct (Hred 0%nat X eq_refl) as [Hr HX].
    rewrite Nat.add_0_r in Hr, HX.
    rewrite !(request_redirect _ m u d s X Hr HX).
    set (k := length (conns s)) in *. set (r := server k) in *.
    set (s1 := st_drain k r (sent server m u d s)).
    assert (Hlen1 : length (conns s1) = S k)
      by (unfold s1; by rewrite st_drain_length, sent_length).
    destruct (IH fuel "GET" (PStr X) PNone s1) as (Hout & Hlen & Hsame).
    { intros i Y HY. rewrite Hlen1.
      replace (S k + i)%nat with (k + S i)%nat by lia. by apply Hred. }
    { rewrite Hlen1.
      by replace (S k + length locations)%nat
        with (k + S (length locations))%nat by lia. }
    { lia. }
    rewrite Hlen1 in Hout, Hlen.
    replace (S k + length locations)%nat
      with (k + S (length locations))%nat in Hout, Hlen by lia.
    rewrite <- Hsame.
    assert (last_uri (PStr X) locations = last_uri u (X :: locations))
      as <-.
    { unfold last_uri. destruct locations as [|Y l]; [done|].
      rewrite last_cons_cons, (last_cons Y l). by destruct (last l). }
    destruct (request fuel "GET" (PStr X) PNone s1) as [o s2].
    by cbn [fst snd st_release conns] in *.
Qed.



(** ** One call of [_lookup], unfolded *)

Lemma get_plain fuel uri :
  _get server json_loads fuel uri ∅ = request fuel "GET" uri PNone.
Proof. reflexivity. Qed.

Lemma lookup_cached fuel key s :
  _index (self s) ≠ PNone ->
  lookup fuel key s = (index_answer (_index (self s)) key, s).
Proof.
  intros Hidx. unfold _lookup, bind at 1, get_self.
  destruct (is_None (_index (self s))) eqn:Hnone.
  { by destruct (_index (self s)). }
  unfold bind, ret, index_answer, lift_exn.
  destruct (py_contains _ key) as [e|[|]]; cbn; try done.
  by destruct (py_getitem _ key).
Qed.

Lemma adopt_index v slf : _index (adopt v slf) = v.
Proof. unfold adopt. by repeat case_match. Qed.

Lemma lookup_fetch fuel key s :
  _index (self s) = PNone ->
  lookup fuel key s =
  match _get server json_loads fuel (_uri (self s)) ∅ s with
  | (Normal v, s1) =>
      (index_answer v key, mkState (adopt v (self s1)) (conns s1) (trace s1))
  | (Raised e, s1) => (Raised e, s1)
  end.
Proof.
  intros Hidx. unfold _lookup, bind at 1, get_self. rewrite Hidx.
  cbn [is_None]. unfold bind at 1. unfold bind at 1. rewrite get_plain.
  destruct fuel as [|fuel]; [done|].
  destruct (request_self fuel "GET" (_uri (self s)) PNone s) as [_ Hself].
  destruct (request (S fuel) "GET" (_uri (self s)) PNone s) as [[v|e] s1];
    [|done].
  cbn [snd] in Hself.
  unfold bind, modify_self, get_response_headers, get_self, bind, ret.
  cbn [self conns trace]. unfold adopt. rewrite Hself.
  cbn [with_index with_response_headers _Resource__response_headers].
  set (h := headers _).
  destruct (h !! "content-location") as [loc|] eqn:Hloc.
  - assert (h ≠ ∅) by (intros ->; by rewrite lookup_empty in Hloc).
    rewrite bool_decide_false by done.
    rewrite bool_decide_true by eauto. cbn [negb andb modify_self].
    unfold index_answer, lift_exn, raise, ret.
    cbn [self conns trace _index with_uri with_index].
    destruct (py_contains v key) as [e|[|]]; try done.
    by destruct (py_getitem v key).
  - rewrite (bool_decide_false (is_Some None)) by (by intros [? ?]).
    rewrite andb_false_r.
    unfold index_answer, lift_exn, raise, ret.
    cbn [self conns trace _index with_index].
    destruct (py_contains v key) as [e|[|]]; try done.
    by destruct (py_getitem v key).
Qed.

(** ** The status dispatch *)

(** Every branch of the status dispatch returns or raises: control never
    reaches the statement after the chain of tests, so the drain of lines
    136 and 137 is never run. *)
Lemma status_dispatch_never_falls_through rec u k s :
  (status_dispatch json_loads rec u k s).1 ≠ Normal Next.
Proof.
  unfold status_dispatch, json_load, drain, bind, response_get,
    response_getitem, Response_read, ret, raise.
  repeat (case_match; simplify_eq; cbn [fst]); done.
Qed.


(** C3: a response with status 400 makes the dispatcher raise the
    bad-request error ([ValueError]) with the raw body; 404 the not-found
    error ([LookupError]) with the requested URI; 409 the conflict error
    ([SystemError]) with the requested URI; any status other than 200, 201,
    204, 302, 400, 404 and 409 the generic error ([SystemError]) with the
    raw body. *)
Theorem request_error_statuses fuel m u d s :
  let r := server (length (conns s)) in
  (status_code r = 400 ->
   (_request server json_loads (S fuel) m u d s).1
   = Raised (ValueError (PStr (body r))))
  ∧ (status_code r = 404 ->
     (_request server json_loads (S fuel) m u d s).1
     = Raised (LookupError u))
  ∧ (status_code r = 409 ->
     (_request server json_loads (S fuel) m u d s).1
     = Raised (SystemError u))
  ∧ (status_code r ∉ [200; 201; 204; 302; 400; 404; 409] ->
     (_request server json_loads (S fuel) m u d s).1
     = Raised (SystemError (PStr (body r)))).
Proof.
  intros r. repeat split; intros Hst.
  1-3: rewrite request_direct by (fold r; lia); fold r;
       unfold direct_outcome; by rewrite Hst.
  repeat (apply not_elem_of_cons in Hst as [? Hst]).
  rewrite request_direct by done. fold r. unfold direct_outcome. cbn [fst].
  repeat (case_match; [lia|]). done.
Qed.

(** C4: for a response with status 302 and Location header [X], the
    dispatcher reads the body unless the message is complete, then calls
    itself for a GET of [X] without payload; the outcome of that call is
    the outcome of the outer call, whose response is released once the
    inner call has completed. With fuel left, the inner call starts by
    sending that GET with the Accept header alone. *)
Theorem redirect_followed fuel m u d s X :
  let k := length (conns s) in
  let r := server k in
  let s1 := st_drain k r (sent server m u d s) in
  status_code r = 302 ->
  headers r !! "location" = Some X ->
  trace s1 = trace s ++ EvRequest k (request_of (self s) m u d)
                        :: (if message_complete r then [] else [EvRead k])
  ∧ _request server json_loads (S fuel) m u d s =
    (let '(o, s2) :=
       _request server json_loads fuel "GET" (PStr X) PNone s1 in
     (o, st_release k s2))
  ∧ (∀ f, fuel = S f ->
       ∃ rest,
         trace (_request server json_loads fuel "GET" (PStr X) PNone s1).2 =
               trace s1 ++
               EvRequest (S k)
                 (mkRequest "GET" (PStr X) PNone
                            {["Accept" := _content_type (self s)]}) :: rest).
Proof.
  intros k r s1 Hst Hloc. split; [|split].
  - unfold s1. rewrite st_drain_trace. unfold sent; cbn [trace].
    by rewrite <- app_assoc.
  - by rewrite (request_redirect fuel m u d s X Hst Hloc).
  - intros f ->.
    destruct (request_run (S f) "GET" (PStr X) PNone s1)
      as (evs & Htr & _ & Hfirst & _).
    destruct (Hfirst f eq_refl) as [rest ->]. exists rest.
    rewrite Htr. unfold s1 at 2 3.
    by rewrite st_drain_length, sent_length, st_drain_self.
Qed.


(** C8: every request that the dispatcher sends, redirects included,
    carries an Accept header set to the content type of the resource, and
    a Content-Type header, set to the content type, exactly when it has a
    payload; the first request sent is the one asked for. *)
Theorem request_headers_sent fuel m u d s :
  ∃ evs,
    trace (_request server json_loads fuel m u d s).2 = trace s ++ evs
    ∧ (∀ k r, EvRequest k r ∈ evs ->
         req_headers r !! "Accept" = Some (_content_type (self s))
         ∧ (req_data r ≠ PNone ->
            req_headers r !! "Content-Type" = Some (_content_type (self s)))
         ∧ (req_data r = PNone -> req_headers r !! "Content-Type" = None))
    ∧ (∀ f, fuel = S f ->
         ∃ hdrs rest,
           evs = EvRequest (length (conns s)) (mkRequest m u d hdrs) :: rest).
Proof.
  destruct (request_run fuel m u d s) as (evs & Htr & Hok & Hfirst & _).
  exists evs. split; [done|]. split.
  - intros k r Hin. rewrite Forall_forall in Hok. apply (Hok _ Hin).
  - intros f Hf. destruct (Hfirst f Hf) as [rest ->]. by eexists _, _.
Qed.

(** ** The lazy index lookup *)

Lemma lookups_cached fuel keys s :
  _index (self s) ≠ PNone -> lookups server json_loads fuel keys s = s.
Proof.
  intros Hidx. unfold lookups.
  induction keys as [|key keys IH]; cbn [fold_left]; [done|].
  by rewrite lookup_cached.
Qed.

(** C6 (as amended): for a resource without index whose first lookup
    fetches a value other than [None], that lookup starts by sending a GET
    for the URI of the resource, and this is its only request unless the
    answer is a 302 redirect; it answers from the index it has fetched.
    From then on every lookup, for any key and in any number, sends nothing
    and leaves the resource as it is (the index is kept), and it answers
    from the cached index too. In the first lookup as in the later ones, a
    key that the membership test does not find raises the key error. *)
Theorem lookup_index_cached fuel key s :
  let k := length (conns s) in
  let s' := (_lookup server json_loads fuel key s).2 in
  let own := request_of (self s) "GET" (_uri (self s)) PNone in
  _index (self s) = PNone ->
  _index (self s') ≠ PNone ->
  (∃ rest, trace s' = trace s ++ EvRequest k own :: rest)
  ∧ (status_code (server k) ≠ 302 ->
     requests_of (trace s') = requests_of (trace s) ++ [own])
  ∧ (_lookup server json_loads fuel key s).1
    = index_answer (_index (self s')) key
  ∧ (py_contains (_index (self s')) key = inr false ->
     (_lookup server json_loads fuel key s).1 = Raised (KeyError (PStr key)))
  ∧ (∀ fuel' keys, lookups server json_loads fuel' keys s' = s')
  ∧ (∀ fuel' key',
       _lookup server json_loads fuel' key' s'
       = (index_answer (_index (self s')) key', s'))
  ∧ (∀ fuel' key',
       py_contains (_index (self s')) key' = inr false ->
       (_lookup server json_loads fuel' key' s').1
       = Raised (KeyError (PStr key'))).
Proof.
  intros k s' own Hnone Hidx.
  assert (Hcached : ∀ fuel' key',
            lookup fuel' key' s' = (index_answer (_index (self s')) key', s'))
    by (intros; by apply lookup_cached).
  assert (∃ f v s1, fuel = S f
            ∧ request (S f) "GET" (_uri (self s)) PNone s = (Normal v, s1)
            ∧ trace s' = trace s1
            ∧ _index (self s') = v
            ∧ (lookup fuel key s).1 = index_answer v key)
    as (f & v & s1 & -> & Hget & Htr & Hv & Hfirst).
  { revert Hidx. unfold s'. rewrite lookup_fetch by done. rewrite get_plain.
    destruct fuel as [|f]; [by cbn; rewrite Hnone|].
    destruct (request (S f) "GET" (_uri (self s)) PNone s)
      as [[v|e] s1] eqn:Hget; cbn [fst snd]; intros Hidx.
    - exists f, v, s1. cbn [self]. by rewrite adopt_index.
    - destruct (request_self f "GET" (_uri (self s)) PNone s) as [_ Hself].
      rewrite Hget in Hself. cbn [snd] in Hself.
      rewrite Hself in Hidx. by cbn in Hidx. }
  refine (conj _ (conj _ (conj _ (conj _ (conj _ (conj _ _)))))).
  - destruct (request_run (S f) "GET" (_uri (self s)) PNone s)
      as (evs & Hevs & _ & Hreq & _).
    destruct (Hreq f eq_refl) as [rest ->]. exists rest.
    rewrite Htr. by rewrite Hget in Hevs.
  - intros Hst. rewrite Htr.
    rewrite (request_direct f "GET" (_uri (self s)) PNone s Hst) in Hget.
    injection Hget as _ <-. fold k own.
    destruct (direct_reads (server k)); cbn [st_release st_read sent trace];
      unfold requests_of; rewrite !omap_app; cbn; by rewrite ?app_nil_r.
  - by rewrite Hv.
  - intros Habs. rewrite Hfirst. rewrite Hv in Habs.
    unfold index_answer. by rewrite Habs.
  - intros fuel' keys. by apply lookups_cached.
  - done.
  - intros fuel' key' Habs. rewrite Hcached. cbn [fst].
    unfold index_answer. by rewrite Habs.
Qed.

(** C7 (as amended): a lookup on a resource without index leaves the base
    URI, the relative URI, the content type and the HTTP client of the
    resource as they are. When the fetch returns a value, the index becomes
    that value, the response headers remembered in the resource are those
    of the last response, and the URI becomes the Content-Location of that
    response if it has one and is unchanged otherwise. When the fetch does
    not return a value, index and URI are unchanged. *)
Theorem lookup_adopts_content_location fuel key s :
  let fetch := _get server json_loads fuel (_uri (self s)) ∅ s in
  let last := server (pred (length (conns fetch.2))) in
  let s' := (_lookup server json_loads fuel key s).2 in
  _index (self s) = PNone ->
  (_base_uri (self s') = _base_uri (self s)
   ∧ _relative_uri (self s') = _relative_uri (self s)
   ∧ _content_type (self s') = _content_type (self s)
   ∧ _http (self s') = _http (self s))
  ∧ (∀ v, fetch.1 = Normal v ->
       _index (self s') = v
       ∧ _Resource__response_headers (self s') = Some (headers last)
       ∧ _uri (self s') =
         match headers last !! "content-location" with
         | Some location => PStr location
         | None => _uri (self s)
         end)
  ∧ ((∀ v, fetch.1 ≠ Normal v) ->
     _index (self s') = PNone ∧ _uri (self s') = _uri (self s)).
Proof.
  intros fetch last s' Hnone.
  unfold s', last. rewrite lookup_fetch by done. fold fetch.
  assert (Hself : self fetch.2 = self s
                  ∨ self fetch.2 =
                    with_response_headers
                      (headers (server (pred (length (conns fetch.2)))))
                      (self s)).
  { unfold fetch. rewrite get_plain. destruct fuel as [|f]; [by left | right].
    apply request_self. }
  assert (Hnormal : ∀ v, fetch.1 = Normal v ->
            self fetch.2 =
            with_response_headers
              (headers (server (pred (length (conns fetch.2))))) (self s)).
  { intros v. unfold fetch. rewrite get_plain.
    destruct fuel as [|f]; [done|].
    intros _. apply request_self. }
  destruct fetch as [[v|e] s1] eqn:Hfetch; cbn [fst snd] in *.
  - rewrite (Hnormal v eq_refl). unfold adopt.
    cbn [_Resource__response_headers with_response_headers].
    split; [|split].
    + by case_match.
    + intros v' [= <-]. by case_match.
    + intros Hno. by destruct (Hno v).
  - split; [|split].
    + by destruct Hself as [-> | ->].
    + by intros v [=].
    + intros _. by destruct Hself as [-> | ->].
Qed.


End Properties.

(** * Examples: the theorems at concrete servers *)

Lemma init_checks_content_type_witness :
  (∃ slf,
     __init__ (PStr "http://svc/node/1") "application/json" PNone None ∅
     = inr slf
          ∧ _uri slf = PStr "http://svc/node/1"
          ∧ _content_type slf = "application/json"
          ∧ _index slf = PNone)
  ∧ __init__ (PStr "http://svc/node/1") "text/xml" PNone None ∅
    = inl (NotImplementedError "Content type text/xml not supported").
Proof.
  split.
  - apply (init_checks_content_type (PStr "http://svc/node/1")
             "application/json" PNone None ∅).
    apply (bool_decide_unpack _). vm_compute. exact I.
  - apply (init_checks_content_type (PStr "http://svc/node/1")
             "text/xml" PNone None ∅).
    apply (bool_decide_unpack _). vm_compute. exact I.
Defined.

(** C1 (the code does not do this): a POST answered by 201 Created with a
    body that is not read yet. The dispatcher returns the Location and
    releases the connection; the body is never read, before or after. *)
Theorem created_released_undrained :
  let run := _request (scripted [] response_created) flat_json_loads 1
                      "POST" (PStr "http://svc/node") (PStr "{}")
                      example_state in
  message_complete response_created = false
  ∧ run.1 = Normal (PStr "http://svc/node/2")
  ∧ trace run.2 =
    [EvRequest 0 (mkRequest "POST" (PStr "http://svc/node") (PStr "{}")
                    (<["Content-Type" := "application/json"]>
                       {["Accept" := "application/json"]}));
     EvRelease 0]
  ∧ conns run.2 = [response_created].
Proof. vm_compute. repeat split. Qed.



Lemma request_error_statuses_witness :
  (_request (scripted [] response_bad_request) flat_json_loads 1
            "POST" (PStr "http://svc/node") (PStr "{") example_state).1
  = Raised (ValueError (PStr "bad payload"))
  ∧ (_request (scripted [] response_not_found) flat_json_loads 1
              "GET" (PStr "http://svc/node/9") PNone example_state).1
    = Raised (LookupError (PStr "http://svc/node/9"))
  ∧ (_request (scripted [] response_conflict) flat_json_loads 1
              "DELETE" (PStr "http://svc/node/1") PNone example_state).1
    = Raised (SystemError (PStr "http://svc/node/1"))
  ∧ (_request (scripted [] response_server_error) flat_json_loads 1
              "GET" (PStr "http://svc/node/1") PNone example_state).1
    = Raised (SystemError (PStr "oops")).
Proof.
  refine (conj _ (conj _ (conj _ _))).
  - apply (request_error_statuses (scripted [] response_bad_request)
             flat_json_loads 0 "POST" (PStr "http://svc/node") (PStr "{")
             example_state).
    reflexivity.
  - apply (request_error_statuses (scripted [] response_not_found)
             flat_json_loads 0 "GET" (PStr "http://svc/node/9") PNone
             example_state).
    reflexivity.
  - apply (request_error_statuses (scripted [] response_conflict)
             flat_json_loads 0 "DELETE" (PStr "http://svc/node/1") PNone
             example_state).
    reflexivity.
  - apply (request_error_statuses (scripted [] response_server_error)
             flat_json_loads 0 "GET" (PStr "http://svc/node/1") PNone
             example_state).
    apply (bool_decide_unpack _). vm_compute. exact I.
Defined.

Lemma redirect_followed_witness :
  (_request (scripted [response_found "http://svc/node/1/"] response_ok_index)
            flat_json_loads 2 "GET" (PStr "http://svc/node/1") PNone
            example_state).1
  = Normal (PDict example_index).
Proof.
  destruct (redirect_followed
              (scripted [response_found "http://svc/node/1/"] response_ok_index)
              flat_json_loads 1 "GET" (PStr "http://svc/node/1") PNone
              example_state "http://svc/node/1/" eq_refl eq_refl)
    as (_ & Hrun & _).
  rewrite Hrun. by vm_compute.
Defined.



(** C6, refuted as stated. First server: the fetch of the first lookup is
    answered by 204, so no index is cached and the second lookup sends the
    GET again. Second server: the fetch is redirected to the URI of the
    resource itself, so the first lookup alone sends two GETs for it. *)
Lemma lookup_fetches_again :
  let own := mkRequest "GET" (PStr "http://svc/node/1") PNone
                       {["Accept" := "application/json"]} in
  let empty_then_index := scripted [response_no_content] response_ok_index in
  let s1 := (_lookup empty_then_index flat_json_loads 1 "self"
                     example_state).2 in
  let s2 := (_lookup empty_then_index flat_json_loads 1 "self" s1).2 in
  let to_itself :=
    scripted [response_found "http://svc/node/1"] response_ok_index in
  let s3 := (_lookup to_itself flat_json_loads 2 "self" example_state).2 in
  _index (self example_state) = PNone
  ∧ requests_of (trace s1) = [own]
  ∧ requests_of (trace s2) = [own; own]
  ∧ requests_of (trace s3) = [own; own]
  ∧ _index (self s3) = PDict example_index.
Proof. vm_compute. repeat split. Qed.

Lemma lookup_index_cached_witness :
  let s' := (_lookup (scripted [] response_ok_index) flat_json_loads 1 "self"
                     example_state).2 in
  requests_of (trace s') =
    [mkRequest "GET" (PStr "http://svc/node/1") PNone
               {["Accept" := "application/json"]}]
  ∧ lookups (scripted [] response_ok_index) flat_json_loads 0
            ["self"; "properties"; "missing"] s' = s'
  ∧ (_lookup (scripted [] response_ok_index) flat_json_loads 0 "missing"
             s').1 = Raised (KeyError (PStr "missing")).
Proof.
  destruct (lookup_index_cached (scripted [] response_ok_index)
              flat_json_loads 1 "self" example_state)
    as (_ & Hone & _ & _ & Hkeep & _ & Habsent).
  - reflexivity.
  - by vm_compute.
  - refine (conj _ (conj _ _)).
    + apply Hone. by vm_compute.
    + apply Hkeep.
    + apply Habsent. by vm_compute.
Defined.

(** C7, refuted as stated: the fetch is answered by 404 with a
    Content-Location header. The URI of the resource is not replaced, and
    the lookup has changed an attribute that is neither the URI nor the
    index: the remembered response headers. *)
Lemma lookup_not_found_keeps_uri :
  let s' := (_lookup (scripted [] response_not_found) flat_json_loads 1
                     "self" example_state).2 in
  headers response_not_found !! "content-location"
    = Some "http://svc/missing"
  ∧ _uri (self example_state) = PStr "http://svc/node/1"
  ∧ _uri (self s') = PStr "http://svc/node/1"
  ∧ _Resource__response_headers (self example_state) = None
  ∧ _Resource__response_headers (self s')
    = Some {["content-location" := "http://svc/missing"]}.
Proof. vm_compute. repeat split. Qed.

Lemma lookup_adopts_content_location_witness :
  let s' := (_lookup (scripted [] response_ok_canonical) flat_json_loads 1
                     "self" example_state).2 in
  (_content_type (self s') = "application/json"
   ∧ _http (self s') = _http example_resource)
  ∧ _index (self s') = PDict example_index
  ∧ _uri (self s') = PStr "http://svc/node/1/".
Proof.
  destruct (lookup_adopts_content_location (scripted [] response_ok_canonical)
              flat_json_loads 1 "self" example_state eq_refl)
    as ((_ & _ & Hct & Hhttp) & Hfetched & _).
  destruct (Hfetched (PDict example_index)) as (Hidx & _ & Huri);
    [by vm_compute|].
  refine (conj (conj _ _) (conj _ _)).
  - exact Hct.
  - exact Hhttp.
  - exact Hidx.
  - rewrite Huri. by vm_compute.
Defined.

Lemma request_headers_sent_witness :
  ∃ evs,
    trace (_request (scripted [response_found "http://svc/node/2"]
                              response_no_content)
                    flat_json_loads 2 "PUT" (PStr "http://svc/node/1")
                    (PStr "{}") example_state).2 = evs
    ∧ Forall (request_headers_ok "application/json") evs.
Proof.
  destruct (request_headers_sent
              (scripted [response_found "http://svc/node/2"]
                        response_no_content)
              flat_json_loads 2 "PUT" (PStr "http://svc/node/1") (PStr "{}")
              example_state) as (evs & Htr & Hok & _).
  exists evs. split; [exact Htr|].
  apply Forall_forall. intros [k r| |] Hin; cbn; [|done..].
  apply (Hok k r Hin).
Defined.



(** * Further properties of the class *)

(** ** Request headers and construction *)

Lemma fold_insert_lookup (c : string) (keys : list string)
    (m : gmap string string) (k : string) :
  fold_left (fun m kv => <[kv.1 := kv.2]> m)
            (map (fun key => (key, c)) keys) m !! k
  = if bool_decide (k ∈ keys) then Some c else m !! k.
Proof.
  revert m. induction keys as [|key keys IH]; intros m; cbn [map fold_left].
  { rewrite bool_decide_false; [done | apply not_elem_of_nil]. }
  rewrite IH. cbn [fst snd].
  destruct (decide (k ∈ keys)) as [Hin|Hin].
  - rewrite !bool_decide_true; [done | by right | done].
  - rewrite (bool_decide_false (k ∈ keys)) by done.
    destruct (decide (k = key)) as [->|Hne].
    + rewrite lookup_insert_eq. rewrite bool_decide_true; [done | by left].
    + rewrite lookup_insert_ne by done.
      rewrite bool_decide_false; [done|].
      rewrite not_elem_of_cons. by split.
Qed.

(** X1: [__get_request_headers] keeps, of the keys it is given, Accept and
    Content-Type, each mapped to the content type of the resource; every
    other key is ignored, and so is the order and the repetition of the
    keys. It reads the resource and changes nothing. *)
Theorem get_request_headers_lookup keys s :
  ∃ h, __get_request_headers keys s = (Normal h, s)
       ∧ ∀ k, h !! k =
              if bool_decide (k ∈ keys ∧ k ∈ ["Accept"; "Content-Type"])
              then Some (_content_type (self s)) else None.
Proof.
  eexists. split; [reflexivity|]. intros k.
  unfold dict_of_pairs. rewrite fold_insert_lookup, lookup_empty.
  apply option_eq. intros v.
  rewrite (bool_decide_ext _ _ (list_elem_of_filter _ keys k)).
  rewrite (bool_decide_ext _ (k ∈ keys ∧ k ∈ ["Accept"; "Content-Type"]))
    by tauto.
  done.
Qed.

(** X2: [Resource.__init__] with a client uses that client and ignores the
    connection parameters; without one it builds a client for the URI in
    which each parameter of the caller overrides the default of the same
    name and the defaults (connection timeout 20, network timeout 300,
    IPv6 disabled) stand for the others. A new resource has no base URI,
    no relative URI and no remembered response headers. *)
Theorem init_client_and_params uri content_type index http http_params slf :
  __init__ uri content_type index http http_params = inr slf ->
  match http with
  | Some client => _http slf = client
  | None =>
      client_url (_http slf) = uri
      ∧ ∀ k, client_params (_http slf) !! k =
             match http_params !! k with
             | Some v => Some v
             | None => default_http_params !! k
             end
  end
  ∧ default_http_params !! "connection_timeout" = Some (PInt 20)
  ∧ default_http_params !! "network_timeout" = Some (PInt 300)
  ∧ default_http_params !! "disable_ipv6" = Some (PBool true)
  ∧ _base_uri slf = PNone
  ∧ _relative_uri slf = PNone
  ∧ _Resource__response_headers slf = None.
Proof.
  unfold __init__. case_match; [done|]. intros [= <-]. cbn.
  split; [|done].
  destruct http as [client|]; [done|]. split; [done|].
  intros k. cbn [HTTPClient_from_url client_params _http].
  rewrite lookup_union.
  by destruct (http_params !! k), (default_http_params !! k).
Qed.

(** ** Equality and spawning *)

(** X3: Two resources whose URIs are strings compare equal with [==] exactly
    when the URIs are the same string, whatever their content types,
    indexes and clients, and [!=] answers the opposite. *)
Theorem eq_by_uri (a b : Resource) (u v : string) :
  _uri a = PStr u ->
  _uri b = PStr v ->
  (__eq__ a b = Some true ↔ u = v)
  ∧ (__eq__ a b = Some false ↔ u ≠ v)
  ∧ __ne__ a b = negb <$> __eq__ a b
  ∧ __eq__ b a = __eq__ a b
  ∧ __eq__ a a = Some true.
Proof.
  intros Ha Hb. unfold __ne__, __eq__, py_ne. rewrite Ha, Hb. cbn.
  repeat split; try done.
  - intros [= H]. by apply bool_decide_eq_true in H.
  - intros ->. by rewrite bool_decide_true.
  - intros [= H]. by apply bool_decide_eq_false in H.
  - intros H. by rewrite bool_decide_false.
  - f_equal. apply bool_decide_ext. naive_solver.
  - by rewrite bool_decide_true.
Qed.

(** X4: [_spawn] on the class [Resource]: without a keyword [http] the new
    resource uses the client of the resource that spawns it; a keyword
    [http] with a client overrides it; the keyword [http=None] makes the
    new resource build a client of its own for its URI. The new resource
    has the URI and index given, and the content type is checked as in any
    construction. *)
Theorem spawn_client (slf : Resource) uri content_type index http_kw
    http_params :
  (content_type ∈ SUPPORTED_CONTENT_TYPES ->
   ∃ child,
     _spawn slf Resource_class (uri, content_type, index) http_kw http_params
     = inr child
     ∧ _uri child = uri
     ∧ _index child = index
     ∧ _http child =
       match http_kw with
       | None => _http slf
       | Some (Some client) => client
       | Some None =>
           HTTPClient_from_url uri (http_params ∪ default_http_params)
       end)
  ∧ (content_type ∉ SUPPORTED_CONTENT_TYPES ->
     ∃ msg,
       _spawn slf Resource_class (uri, content_type, index) http_kw
              http_params
       = inl (NotImplementedError msg)).
Proof.
  unfold _spawn, Resource_class, __init__. cbn [fst snd].
  split; intros Hct.
  - rewrite bool_decide_true by done. cbn [negb]. eexists.
    split; [done|]. cbn. by destruct http_kw as [[client|]|].
  - rewrite bool_decide_false by done. cbn [negb]. by eexists.
Qed.

Section MoreProperties.

Variable server : nat -> Response.
Variable json_loads : string -> option pyval.
Variable json_dumps : pyval -> string.

(** ** The events of a call, in order *)

Lemma count_events_app p l1 l2 :
  count_events p (l1 ++ l2) = (count_events p l1 + count_events p l2)%nat.
Proof. induction l1 as [|e l1 IH]; cbn; [done | rewrite IH; lia]. Qed.

Lemma count_reads_other j l :
  Forall (fun e => event_id e ≠ j) l -> count_events (is_read_of j) l = 0%nat.
Proof.
  induction 1 as [|e l He _ IH]; cbn; [done|]. rewrite IH.
  destruct e as [k r|k|k]; cbn in *; try done.
  by rewrite bool_decide_false.
Qed.

Lemma releases_snoc k n :
  map EvRelease (reverse (seq k (S n)))
  = map EvRelease (reverse (seq (S k) n)) ++ [EvRelease k].
Proof. cbn [seq]. by rewrite reverse_cons, map_app. Qed.

(** The shape of the events of a call: first the requests and reads, none
    of them a release, each about a response obtained by the call and each
    body read at most once; then the releases of all these responses, the
    last obtained first. *)
Lemma request_shape fuel : ∀ m u d s,
  let run := _request server json_loads fuel m u d s in
  let k := length (conns s) in
  let k' := length (conns run.2) in
  ∃ acts,
    trace run.2 =
      trace s ++ acts ++ map EvRelease (reverse (seq k (k' - k)))
    ∧ Forall (fun e => is_release e = false
                       ∧ (k ≤ event_id e < k')%nat) acts
    ∧ (∀ j, count_events (is_read_of j) acts ≤ 1)%nat
    ∧ (k ≤ k')%nat.
Proof.
  induction fuel as [|fuel IH]; intros m u d s; cbn zeta.
  { exists []. cbn. rewrite Nat.sub_diag. cbn. rewrite app_nil_r.
    split; [done|]. split; [constructor|]. split; [intros; lia | lia]. }
  set (k := length (conns s)). set (r := server k).
  destruct (request_cases server json_loads fuel m u d s)
    as [(X & Hr & HX & ->)|(o & reads & ->)]; fold k r.
  - set (s1 := st_drain k r (sent server m u d s)).
    destruct (IH "GET" (PStr X) PNone s1)
      as (acts & Htr & Hacts & Hreads & Hle).
    assert (Hlen1 : length (conns s1) = S k).
    { unfold s1. by rewrite st_drain_length, sent_length. }
    assert (Htr1 : trace s1 = trace s ++
              EvRequest k (request_of (self s) m u d)
              :: (if message_complete r then [] else [EvRead k])).
    { unfold s1. rewrite st_drain_trace. unfold sent; cbn [trace].
      by rewrite <- app_assoc. }
    rewrite Hlen1 in Htr, Hacts, Hle.
    destruct (_request server json_loads fuel "GET" _ PNone s1)
      as [o s2] eqn:Hrun.
    cbn [fst snd st_release trace conns] in *.
    set (k' := length (conns s2)) in *.
    exists (EvRequest k (request_of (self s) m u d)
            :: (if message_complete r then [] else [EvRead k]) ++ acts).
    split; [|split; [|split; [|lia]]].
    + replace (k' - k)%nat with (S (k' - S k)) by lia.
      rewrite releases_snoc, Htr, Htr1, <- !app_assoc. cbn [app].
      by rewrite <- !app_assoc.
    + constructor; [cbn; split; [done | lia]|].
      apply Forall_app. split.
      * destruct (message_complete r); repeat constructor; cbn; lia.
      * eapply Forall_impl; [exact Hacts|]. cbn. intros e [? ?].
        split; [done | lia].
    + intros j. cbn [count_events is_read_of]. rewrite count_events_app.
      destruct (decide (j = k)) as [->|Hne].
      * rewrite (count_reads_other k acts).
        -- destruct (message_complete r); cbn; repeat case_bool_decide; lia.
        -- eapply Forall_impl; [exact Hacts|]. cbn. intros e [_ ?]. lia.
      * specialize (Hreads j).
        destruct (message_complete r); cbn [count_events is_read_of];
          rewrite ?bool_decide_false by done; lia.
  - cbn [fst snd].
    exists (EvRequest k (request_of (self s) m u d)
            :: (if reads then [EvRead k] else [])).
    rewrite terminal_length. fold k.
    replace (S k - k)%nat with 1%nat by lia.
    split; [|split; [|split; [|lia]]].
    + destruct reads; cbn; by rewrite <- ?app_assoc.
    + constructor; [cbn; split; [done | lia]|].
      destruct reads; repeat constructor; cbn; lia.
    + intros j. destruct reads; cbn; repeat case_bool_decide; lia.
Qed.

(** X5: A call has, when it ends, released every response it obtained,
    each once, after all its requests and reads, the last obtained
    first. *)
Theorem request_releases_last_first fuel m u d s :
  let run := _request server json_loads fuel m u d s in
  let k := length (conns s) in
  let k' := length (conns run.2) in
  ∃ acts,
    trace run.2 =
      trace s ++ acts ++ map EvRelease (reverse (seq k (k' - k)))
    ∧ Forall (fun e => is_release e = false) acts.
Proof.
  destruct (request_shape fuel m u d s) as (acts & Htr & Hacts & _).
  exists acts. split; [exact Htr|].
  eapply Forall_impl; [exact Hacts|]. by intros e [? _].
Qed.

(** X6: A call acts on the responses it obtained itself and on no other, and
    it reads the body of each of them at most once. *)
Theorem request_reads_own_once fuel m u d s :
  let run := _request server json_loads fuel m u d s in
  let k := length (conns s) in
  let k' := length (conns run.2) in
  ∃ evs,
    trace run.2 = trace s ++ evs
    ∧ Forall (fun e => (k ≤ event_id e < k')%nat) evs
    ∧ ∀ j, (count_events (is_read_of j) evs ≤ 1)%nat.
Proof.
  destruct (request_shape fuel m u d s) as (acts & Htr & Hacts & Hreads & Hle).
  cbn zeta in *.
  set (run := _request server json_loads fuel m u d s) in *.
  set (k := length (conns s)) in *. set (k' := length (conns run.2)) in *.
  set (rels := map EvRelease (reverse (seq k (k' - k)))) in *.
  assert (Hrels : Forall (fun e => (k ≤ event_id e < k')%nat
                                   ∧ ∀ j, is_read_of j e = false) rels).
  { unfold rels. apply Forall_map, Forall_forall. intros j Hj.
    apply elem_of_reverse, elem_of_seq in Hj. cbn. split; [lia | done]. }
  exists (acts ++ rels). split; [exact Htr|]. split.
  - apply Forall_app. split.
    + eapply Forall_impl; [exact Hacts|]. by intros e [_ ?].
    + eapply Forall_impl; [exact Hrels|]. by intros e [? _].
  - intros j. rewrite count_events_app.
    assert (count_events (is_read_of j) rels = 0%nat) as ->.
    { clear -Hrels. induction Hrels as [|e l [_ He] _ IH]; cbn; [done|].
      by rewrite He, IH. }
    specialize (Hreads j). lia.
Qed.

(** ** Missing headers and what a call changes *)

(** X7: When a response lacks a header that the dispatch subscripts, the
    call raises the [KeyError] of the subscript, naming the header, and
    releases the response: transfer-encoding for a 200 without a non-zero
    content length, Location for a 201, and Location for a 302, which is
    drained first and followed by no request. *)
Theorem request_missing_header fuel m u d s :
  let k := length (conns s) in
  let r := server k in
  let s0 := sent server m u d s in
  (status_code r = 200 ->
   content_length r = None ∨ content_length r = Some 0 ->
   headers r !! "transfer-encoding" = None ->
   _request server json_loads (S fuel) m u d s
   = (Raised (KeyError (PStr "transfer-encoding")), st_release k s0))
  ∧ (status_code r = 201 ->
     headers r !! "location" = None ->
     _request server json_loads (S fuel) m u d s
     = (Raised (KeyError (PStr "location")), st_release k s0))
  ∧ (status_code r = 302 ->
     headers r !! "location" = None ->
     _request server json_loads (S fuel) m u d s
     = (Raised (KeyError (PStr "location")),
        st_release k (st_drain k r s0))).
Proof.
  intros k r s0. refine (conj _ (conj _ _)).
  - intros Hst Hlen Hte. unfold s0, k.
    rewrite request_direct by (fold k r; lia).
    fold k r. unfold direct_outcome, direct_reads. rewrite Hst.
    cbn [Z.eqb Pos.eqb].
    assert (has_body r = inl (KeyError (PStr "transfer-encoding"))) as ->;
      [|done].
    unfold has_body, content_length_truthy, Response_getitem. rewrite Hte.
    by destruct Hlen as [-> | ->].
  - intros Hst HX. unfold s0, k.
    rewrite request_direct by (fold k r; lia).
    fold k r. unfold direct_outcome, direct_reads, Response_getitem.
    by rewrite Hst, HX.
  - intros Hst HX. by apply request_lost.
Qed.

(** X8: A call leaves the URI, the base and relative URI, the content type,
    the client and the index of the resource as they are; if it sends a
    request at all, the response headers remembered in the resource are
    afterwards those of the last response it obtained. *)
Theorem request_changes_headers_only fuel m u d s :
  let s' := (_request server json_loads fuel m u d s).2 in
  (_uri (self s') = _uri (self s)
   ∧ _base_uri (self s') = _base_uri (self s)
   ∧ _relative_uri (self s') = _relative_uri (self s)
   ∧ _content_type (self s') = _content_type (self s)
   ∧ _http (self s') = _http (self s)
   ∧ _index (self s') = _index (self s))
  ∧ match fuel with
    | O => s' = s
    | S _ =>
        _Resource__response_headers (self s')
        = Some (headers (server (pred (length (conns s')))))
    end.
Proof.
  destruct fuel as [|fuel]; [done|]. cbn zeta.
  destruct (request_self server json_loads fuel m u d s) as [_ ->].
  done.
Qed.

(** ** Redirect chains *)

(** X9: A call that is redirected to the locations of a list, one 302 with
    its Location after the other, and then meets a response that is not a
    302 sends one request more than it met redirects, as long as the
    recursion limit allows that many nested calls, and its outcome is the
    one of that last response for the last location: after a redirect, a
    404 or a 409 reports the URI redirected to, not the URI asked for. *)
Theorem request_follows_chain locations fuel m u d s :
  let k := length (conns s) in
  let n := length locations in
  let run := _request server json_loads fuel m u d s in
  (∀ i X, locations !! i = Some X ->
          status_code (server (k + i)) = 302
          ∧ headers (server (k + i)) !! "location" = Some X) ->
  status_code (server (k + n)) ≠ 302 ->
  (n < fuel)%nat ->
  run.1 = direct_outcome json_loads (last_uri u locations) (server (k + n))
  ∧ length (conns run.2) = S (k + n)
  ∧ (status_code (server (k + n)) = 404 ->
     run.1 = Raised (LookupError (last_uri u locations)))
  ∧ (status_code (server (k + n)) = 409 ->
     run.1 = Raised (SystemError (last_uri u locations))).
Proof.
  intros k n run Hredir Hlast Hfuel.
  destruct (request_chain server json_loads locations fuel m u d s
              Hredir Hlast Hfuel) as (Hout & Hlen & _).
  fold k n run in Hout, Hlen. refine (conj Hout (conj Hlen (conj _ _))).
  - intros Hst. rewrite Hout. unfold direct_outcome. by rewrite Hst.
  - intros Hst. rewrite Hout. unfold direct_outcome. by rewrite Hst.
Qed.

(** ** The verbs *)

Lemma call_request_plain fuel method uri data kwargs :
  kwargs !! "self" = None -> kwargs !! "method" = None ->
  kwargs !! "uri" = None ->
  (is_Some data -> kwargs !! "data" = None) ->
  call_request server json_loads fuel method uri data kwargs
  = _request server json_loads fuel method uri
      match data with
      | Some payload => payload
      | None => default PNone (kwargs !! "data")
      end.
Proof.
  intros Hself Hmethod Huri Hdata. unfold call_request.
  destruct data as [payload|]; cbn [existsb app];
    rewrite Hself, Hmethod, Huri, ?Hdata by eauto; done.
Qed.

Lemma call_request_clash fuel method uri data kwargs name s :
  name ∈ ["self"; "method"; "uri"]
         ++ match data with Some _ => ["data"] | None => [] end ->
  is_Some (kwargs !! name) ->
  call_request server json_loads fuel method uri data kwargs s
  = (Raised (TypeError "got multiple values for keyword argument"), s).
Proof.
  intros Hin Hsome. unfold call_request.
  assert (existsb (fun name => bool_decide (is_Some (kwargs !! name)))
            (["self"; "method"; "uri"]
             ++ match data with Some _ => ["data"] | None => [] end)
          = true) as ->; [|done].
  apply existsb_exists. exists name.
  split; [by apply list_elem_of_In | by apply bool_decide_eq_true].
Qed.

(** X10: The verbs pass their keywords on to [_request]. With keywords
    that name none of the parameters filled by position, [_get] and
    [_delete] start with the request of their method for the URI given,
    whose payload is the keyword [data], [None] without it, and whose
    headers follow the payload as in any request; [_post] and [_put] start
    with the request whose payload is the encoding of the data, [None]
    included. A keyword [method] makes each verb raise a [TypeError] and
    send nothing. *)
Theorem verbs_first_request fuel uri data kwargs s :
  let k := length (conns s) in
  kwargs !! "self" = None ->
  kwargs !! "uri" = None ->
  (kwargs !! "method" = None ->
   (∃ rest, trace (_get server json_loads (S fuel) uri kwargs s).2 =
            trace s ++
            EvRequest k (request_of (self s) "GET" uri
                           (default PNone (kwargs !! "data"))) :: rest)
   ∧ (∃ rest, trace (_delete server json_loads (S fuel) uri kwargs s).2 =
              trace s ++
              EvRequest k (request_of (self s) "DELETE" uri
                             (default PNone (kwargs !! "data"))) :: rest)
   ∧ (kwargs !! "data" = None ->
      (∃ rest,
         trace (_post server json_loads json_dumps (S fuel) uri data
                      kwargs s).2
         = trace s ++
           EvRequest k (request_of (self s) "POST" uri
                          (PStr (json_dumps data))) :: rest)
      ∧ (∃ rest,
           trace (_put server json_loads json_dumps (S fuel) uri data
                       kwargs s).2
           = trace s ++
             EvRequest k (request_of (self s) "PUT" uri
                            (PStr (json_dumps data))) :: rest)))
  ∧ (is_Some (kwargs !! "method") ->
     ∃ e, e = Raised (TypeError "got multiple values for keyword argument")
          ∧ _get server json_loads (S fuel) uri kwargs s = (e, s)
          ∧ _delete server json_loads (S fuel) uri kwargs s = (e, s)
          ∧ _post server json_loads json_dumps (S fuel) uri data kwargs s
            = (e, s)
          ∧ _put server json_loads json_dumps (S fuel) uri data kwargs s
            = (e, s)).
Proof.
  intros k Hself Huri. unfold _get, _delete, _post, _put.
  refine (conj _ _).
  - intros Hmethod. refine (conj _ (conj _ _)).
    + rewrite call_request_plain by (done || by intros [? ?]).
      destruct (request_run server json_loads (S fuel) "GET" uri
                  (default PNone (kwargs !! "data")) s)
        as (evs & -> & _ & Hfirst & _).
      destruct (Hfirst fuel eq_refl) as [rest ->]. by exists rest.
    + rewrite call_request_plain by (done || by intros [? ?]).
      destruct (request_run server json_loads (S fuel) "DELETE" uri
                  (default PNone (kwargs !! "data")) s)
        as (evs & -> & _ & Hfirst & _).
      destruct (Hfirst fuel eq_refl) as [rest ->]. by exists rest.
    + intros Hdata. rewrite !call_request_plain by done. split.
      * destruct (request_run server json_loads (S fuel) "POST" uri
                    (PStr (json_dumps data)) s)
          as (evs & -> & _ & Hfirst & _).
        destruct (Hfirst fuel eq_refl) as [rest ->]. by exists rest.
      * destruct (request_run server json_loads (S fuel) "PUT" uri
                    (PStr (json_dumps data)) s)
          as (evs & -> & _ & Hfirst & _).
        destruct (Hfirst fuel eq_refl) as [rest ->]. by exists rest.
  - intros Hmethod. eexists. split; [reflexivity|].
    repeat split;
      apply (call_request_clash _ _ _ _ _ "method"); try done;
      destruct data; cbn; set_solver.
Qed.

(** ** More on the index lookup *)

(** X11: A resource constructed with a dictionary as index answers every
    lookup from it: the value under the key, or the key error when the
    dictionary has no such key (the empty dictionary included). It sends
    no request and nothing of the state changes. *)
Theorem lookup_supplied_index uri content_type d http http_params slf :
  __init__ uri content_type (PDict d) http http_params = inr slf ->
  ∀ fuel key cs tr,
    _lookup server json_loads fuel key (mkState slf cs tr) =
    (match d !! key with
     | Some v => Normal v
     | None => Raised (KeyError (PStr key))
     end, mkState slf cs tr).
Proof.
  unfold __init__. case_match; [done|]. intros [= <-] fuel key cs tr.
  rewrite lookup_cached by done. f_equal.
  unfold index_answer; cbn.
  destruct (d !! key) as [v|] eqn:Hd.
  - rewrite bool_decide_true by eauto. done.
  - rewrite bool_decide_false; [done|]. by intros [? ?].
Qed.

Lemma direct_outcome_raises u r e :
  direct_outcome json_loads u r = Raised e -> not_attribute_error e = true.
Proof.
  unfold direct_outcome, decode, has_body, Response_getitem.
  repeat case_match; intros [= <-]; simplify_eq; done.
Qed.

Lemma request_raises fuel : ∀ m u d s e,
  (_request server json_loads fuel m u d s).1 = Raised e ->
  not_attribute_error e = true.
Proof.
  induction fuel as [|fuel IH]; intros m u d s e.
  { cbn. by intros [= <-]. }
  destruct (decide (status_code (server (length (conns s))) = 302))
    as [Hr|Hr].
  - destruct (headers (server (length (conns s))) !! "location")
      as [X|] eqn:HX.
    + rewrite (request_redirect server json_loads fuel m u d s X Hr HX).
      specialize (IH "GET" (PStr X) PNone
        (st_drain (length (conns s)) (server (length (conns s)))
                  (sent server m u d s)) e).
      destruct (_request server json_loads fuel "GET" _ PNone _)
        as [[v|e'] s2]; cbn [fst] in *; [done|].
      intros [= ->]. by apply IH.
    + rewrite (request_lost server json_loads fuel m u d s Hr HX).
      cbn [fst]. by intros [= <-].
  - rewrite (request_direct server json_loads fuel m u d s Hr). cbn [fst].
    apply direct_outcome_raises.
Qed.

Lemma index_answer_raises index key e :
  index_answer index key = Raised e -> not_attribute_error e = true.
Proof.
  unfold index_answer, py_contains, py_getitem.
  repeat case_match; intros [= <-]; simplify_eq; done.
Qed.

(** X12: A lookup never raises an [AttributeError] of its own: the
    response headers, which the constructor does not set, are only read
    after the fetch has returned, and every fetch that returns has set
    them. *)
Theorem lookup_no_attribute_error fuel key s e :
  (_lookup server json_loads fuel key s).1 = Raised e ->
  ∀ msg, e ≠ AttributeError msg.
Proof.
  intros Hrun.
  assert (not_attribute_error e = true) as He; [|by intros ? ->].
  assert (_index (self s) = PNone ∨ _index (self s) ≠ PNone)
    as [Hnone|Hidx] by (destruct (_index (self s)); by (left + right)).
  - rewrite lookup_fetch in Hrun by done. rewrite get_plain in Hrun.
    pose proof (request_raises fuel "GET" (_uri (self s)) PNone s) as Hreq.
    destruct (_request server json_loads fuel "GET" _ PNone s)
      as [[v|e'] s1]; cbn [fst] in *.
    + by apply index_answer_raises in Hrun.
    + injection Hrun as ->. by apply Hreq.
  - rewrite lookup_cached in Hrun by done.
    by apply index_answer_raises in Hrun.
Qed.

(** X13: With a list or a string as index a lookup never returns a value: a
    key that is an element of the list, or a piece of the string, raises a
    [TypeError], any other key the key error. *)
Theorem lookup_sequence_index fuel key s :
  (∃ l, _index (self s) = PList l) ∨ (∃ t, _index (self s) = PStr t) ->
  ∃ e, _lookup server json_loads fuel key s = (Raised e, s)
       ∧ (py_contains (_index (self s)) key = inr true ->
          ∃ msg, e = TypeError msg)
       ∧ (py_contains (_index (self s)) key = inr false ->
          e = KeyError (PStr key)).
Proof.
  intros Hidx. rewrite lookup_cached by (destruct Hidx as [[? ->]|[? ->]]; done).
  unfold index_answer.
  destruct Hidx as [[l ->]|[t ->]]; cbn [py_contains py_getitem].
  - destruct (existsb _ l); eexists; (split; [done|]); split; try done;
      intros _; by eexists.
  - destruct (is_substring key t); eexists; (split; [done|]); split;
      try done; intros _; by eexists.
Qed.

(** X14: A lookup can change what the resource is equal to: when the fetch
    returns a value and the last response carries a Content-Location other
    than the URI of the resource, the resource no longer compares equal to
    the resource it was before. *)
Theorem lookup_changes_equality fuel key s u location v :
  let fetch := _get server json_loads fuel (_uri (self s)) ∅ s in
  let s' := (_lookup server json_loads fuel key s).2 in
  _index (self s) = PNone ->
  _uri (self s) = PStr u ->
  fetch.1 = Normal v ->
  headers (server (pred (length (conns fetch.2)))) !! "content-location"
    = Some location ->
  location ≠ u ->
  __eq__ (self s') (self s) = Some false
  ∧ __ne__ (self s') (self s) = Some true
  ∧ __eq__ (self s') (with_uri (PStr location) (self s)) = Some true.
Proof.
  intros fetch s' Hnone Hu Hv Hloc Hne.
  assert (_uri (self s') = PStr location) as Huri.
  { unfold s'. rewrite lookup_fetch by done. fold fetch.
    assert (Hself : self fetch.2 =
              with_response_headers
                (headers (server (pred (length (conns fetch.2))))) (self s)).
    { revert Hv. unfold fetch. rewrite get_plain.
      destruct fuel as [|f]; [done|].
      intros _. apply request_self. }
    destruct fetch as [[w|?] s1]; cbn [fst snd] in *; [|done].
    rewrite Hself. unfold adopt.
    cbn [_Resource__response_headers with_response_headers].
    by rewrite Hloc. }
  unfold __ne__, __eq__, py_ne. rewrite Huri, Hu. cbn.
  rewrite bool_decide_false by done. by rewrite bool_decide_true.
Qed.

End MoreProperties.

(** * Examples for the further properties *)

Lemma init_client_and_params_witness :
  client_params
    (_http (mkResource (PStr "http://svc/") PNone PNone "application/json"
              (HTTPClient_from_url (PStr "http://svc/")
                 ({["network_timeout" := PInt 5]} ∪ default_http_params))
              PNone None)) !! "network_timeout" = Some (PInt 5)
  ∧ client_params
      (_http (mkResource (PStr "http://svc/") PNone PNone "application/json"
                (HTTPClient_from_url (PStr "http://svc/")
                   ({["network_timeout" := PInt 5]} ∪ default_http_params))
                PNone None)) !! "connection_timeout" = Some (PInt 20).
Proof.
  destruct (init_client_and_params (PStr "http://svc/") "application/json"
              PNone None {["network_timeout" := PInt 5]} _ eq_refl)
    as ((_ & Hparams) & _).
  split; rewrite Hparams; reflexivity.
Defined.

Lemma eq_by_uri_witness :
  __eq__ example_resource
         (with_index (PDict example_index) example_resource) = Some true
  ∧ __eq__ example_resource
           (with_uri (PStr "http://svc/node/2") example_resource)
    = Some false.
Proof.
  destruct (eq_by_uri example_resource
              (with_index (PDict example_index) example_resource)
              "http://svc/node/1" "http://svc/node/1" eq_refl eq_refl)
    as ([_ Hsame] & _).
  destruct (eq_by_uri example_resource
              (with_uri (PStr "http://svc/node/2") example_resource)
              "http://svc/node/1" "http://svc/node/2" eq_refl eq_refl)
    as (_ & [_ Hother] & _).
  split; [apply Hsame; reflexivity | apply Hother; discriminate].
Defined.

Lemma spawn_client_witness :
  ∃ child,
    _spawn example_resource Resource_class
           (PStr "http://svc/node/2", "application/json", PNone) None ∅
    = inr child
    ∧ _http child = _http example_resource.
Proof.
  destruct (spawn_client example_resource (PStr "http://svc/node/2")
              "application/json" PNone None ∅) as [Hok _].
  destruct Hok as (child & Hspawn & _ & _ & Hhttp).
  - apply (bool_decide_unpack _). vm_compute. exact I.
  - exists child. split; [exact Hspawn | exact Hhttp].
Defined.

Lemma request_missing_header_witness :
  (_request (scripted [] response_ok_empty) flat_json_loads 1
            "GET" (PStr "http://svc/node/1") PNone example_state).1
  = Raised (KeyError (PStr "transfer-encoding"))
  ∧ (_request (scripted [] response_created_nowhere) flat_json_loads 1
              "POST" (PStr "http://svc/node") (PStr "{}") example_state).1
    = Raised (KeyError (PStr "location"))
  ∧ requests_of
      (trace (_request (scripted [] response_found_nowhere) flat_json_loads
                       5 "GET" (PStr "http://svc/node/1") PNone
                       example_state).2)
    = [mkRequest "GET" (PStr "http://svc/node/1") PNone
                 {["Accept" := "application/json"]}].
Proof.
  refine (conj _ (conj _ _)).
  - destruct (request_missing_header (scripted [] response_ok_empty)
                flat_json_loads 0 "GET" (PStr "http://svc/node/1") PNone
                example_state) as (H & _).
    rewrite H; [reflexivity | reflexivity | by left | reflexivity].
  - destruct (request_missing_header (scripted [] response_created_nowhere)
                flat_json_loads 0 "POST" (PStr "http://svc/node") (PStr "{}")
                example_state) as (_ & H & _).
    rewrite H; reflexivity.
  - destruct (request_missing_header (scripted [] response_found_nowhere)
                flat_json_loads 4 "GET" (PStr "http://svc/node/1") PNone
                example_state) as (_ & _ & H).
    rewrite H; reflexivity.
Defined.

Lemma request_follows_chain_witness :
  (_request (scripted [response_found "http://svc/a";
                       response_found "http://svc/b"] response_not_found)
            flat_json_loads 3 "GET" (PStr "http://svc/node/1") PNone
            example_state).1
  = Raised (LookupError (PStr "http://svc/b")).
Proof.
  destruct (request_follows_chain
              (scripted [response_found "http://svc/a";
                         response_found "http://svc/b"] response_not_found)
              flat_json_loads ["http://svc/a"; "http://svc/b"] 3
              "GET" (PStr "http://svc/node/1") PNone example_state)
    as (_ & _ & Hnf & _).
  - intros [|[|i]] X HX; cbn in HX; simplify_eq; by split.
  - by vm_compute.
  - cbn. lia.
  - apply Hnf. reflexivity.
Defined.

Lemma verbs_first_request_witness :
  (∃ rest,
     trace (_get (scripted [] response_no_content) flat_json_loads 1
                 (PStr "http://svc/node/1") {["data" := PStr "{}"]}
                 example_state).2
     = EvRequest 0 (mkRequest "GET" (PStr "http://svc/node/1") (PStr "{}")
                      (<["Content-Type" := "application/json"]>
                         {["Accept" := "application/json"]})) :: rest)
  ∧ (∃ rest,
       trace (_post (scripted [] response_no_content) flat_json_loads
                    (fun _ => "null") 1 (PStr "http://svc/node") PNone ∅
                    example_state).2
       = EvRequest 0 (mkRequest "POST" (PStr "http://svc/node")
                        (PStr "null")
                        (<["Content-Type" := "application/json"]>
                           {["Accept" := "application/json"]})) :: rest).
Proof.
  split.
  - destruct (verbs_first_request (scripted [] response_no_content)
                flat_json_loads (fun _ => "null") 0
                (PStr "http://svc/node/1") PNone {["data" := PStr "{}"]}
                example_state) as [Hplain _]; [by vm_compute..|].
    destruct Hplain as ([rest Hget] & _); [by vm_compute|].
    exists rest. exact Hget.
  - destruct (verbs_first_request (scripted [] response_no_content)
                flat_json_loads (fun _ => "null") 0
                (PStr "http://svc/node") PNone ∅
                example_state) as [Hplain _]; [by vm_compute..|].
    destruct Hplain as (_ & _ & Hdata); [by vm_compute|].
    destruct Hdata as ([rest Hpost] & _); [by vm_compute|].
    exists rest. exact Hpost.
Defined.

Lemma lookup_supplied_index_witness :
  _lookup (scripted [] response_server_error) flat_json_loads 0 "self"
    (mkState (mkResource (PStr "http://svc/node/1") PNone PNone
                "application/json" example_client (PDict example_index)
                None) [] [])
  = (Normal (PStr "http://svc/node/1"),
     mkState (mkResource (PStr "http://svc/node/1") PNone PNone
                "application/json" example_client (PDict example_index)
                None) [] []).
Proof.
  apply (lookup_supplied_index (scripted [] response_server_error)
           flat_json_loads (PStr "http://svc/node/1") "application/json"
           example_index (Some example_client) ∅ _ eq_refl 0%nat "self" [] []).
Defined.

Lemma lookup_no_attribute_error_witness :
  (_lookup (scripted [] response_no_content) flat_json_loads 1 "self"
           example_state).1
  = Raised (TypeError "argument of type 'NoneType' is not iterable")
  ∧ ∀ msg, TypeError "argument of type 'NoneType' is not iterable"
           ≠ AttributeError msg.
Proof.
  split; [reflexivity|].
  apply (lookup_no_attribute_error (scripted [] response_no_content)
           flat_json_loads 1 "self" example_state).
  reflexivity.
Defined.

Lemma lookup_sequence_index_witness :
  ∃ e,
    _lookup (scripted [] response_server_error) flat_json_loads 0 "node"
      (mkState (with_index (PStr "http://svc/node/2") example_resource)
               [] [])
    = (Raised e,
       mkState (with_index (PStr "http://svc/node/2") example_resource)
               [] [])
    ∧ ∃ msg, e = TypeError msg.
Proof.
  destruct (lookup_sequence_index (scripted [] response_server_error)
              flat_json_loads 0 "node"
              (mkState (with_index (PStr "http://svc/node/2")
                                   example_resource) [] []))
    as (e & Hrun & Hin & _).
  - right. by eexists.
  - exists e. split; [exact Hrun|]. apply Hin. reflexivity.
Defined.

Lemma lookup_changes_equality_witness :
  __eq__ (self (_lookup (scripted [] response_ok_canonical) flat_json_loads
                        1 "self" example_state).2)
         (self example_state) = Some false.
Proof.
  apply (lookup_changes_equality (scripted [] response_ok_canonical)
           flat_json_loads 1 "self" example_state "http://svc/node/1"
           "http://svc/node/1/" (PDict example_index)).
  - reflexivity.
  - reflexivity.
  - by vm_compute.
  - reflexivity.
  - discriminate.
Defined.
